(** * manabuild: version model, environment model, source acquisition and
      version resolution, embedded from the Go sources and checked against
      the written specification.

    Source files embedded here:
    - [version.go] in its current form (the one [cmd.go] calls, with
      [IsZero], [findLatestManateeInOpt] and the two-argument
      [AutodetectManateeVersion]),
    - [env.go], [conf.go] (download part), [builder.go], [cmd.go], and the
      command runner ([WithEnv], [RunCommand]).

    Go values are modelled as follows: [int] as [Z] (64-bit bounds are
    written out where the code can meet them, i.e. in [strconv.Atoi]);
    [string] as [string] (a byte sequence); [map[string]string] as
    [gmap string string] living in a store of maps addressed by reference,
    because Go maps are reference values; [(T, error)] results as pairs
    [T * option error]; a run-time panic as an explicit outcome. *)

From Stdlib Require Import ZArith Ascii List Lia DecimalString.
From Stdlib Require DecimalZ.
From Stdlib Require Import Sorted.
From stdpp Require Import base option list gmap strings fin_maps.

Local Open Scope Z_scope.

(** ** Go's [strings], [strconv] and [fmt] functions used by the program *)

Module GoStrings.

(** [strings.HasSuffix(s, suffix)]:
    [len(s) >= len(suffix) && s[len(s)-len(suffix):] == suffix]. *)
Definition HasSuffix (s suffix : string) : bool :=
  (String.length suffix <=? String.length s)%nat &&
  String.eqb
    (String.substring (String.length s - String.length suffix)
               (String.length suffix) s)
    suffix.

(** [strings.TrimSuffix(s, suffix)]: [s[:len(s)-len(suffix)]] when [s]
    ends with [suffix], otherwise [s] unchanged. *)
Definition TrimSuffix (s suffix : string) : string :=
  if HasSuffix s suffix
  then String.substring 0 (String.length s - String.length suffix) s
  else s.

(** [strings.Split(s, sep)] for a one-byte separator, the only way the
    program calls it: the pieces between the separators, in order; an
    input without separator (the empty string included) gives one piece. *)
Fixpoint Split (s : string) (sep : ascii) : list string :=
  match s with
  | EmptyString => [EmptyString]
  | String c rest =>
      if Ascii.eqb c sep then EmptyString :: Split rest sep
      else match Split rest sep with
           | piece :: pieces => String c piece :: pieces
           | [] => [String c EmptyString]
           end
  end.

(** [strings.Join(elems, sep)]. *)
Fixpoint Join (elems : list string) (sep : string) : string :=
  match elems with
  | [] => EmptyString
  | [e] => e
  | e :: rest => e +:+ sep +:+ Join rest sep
  end.

(** [fmt.Sprintf("%d", n)]: the decimal numeral of [n], with a leading
    minus sign for negative numbers and no leading zeros. *)
Definition Itoa (n : Z) : string := NilZero.string_of_int (Z.to_int n).

End GoStrings.

Import GoStrings.

(** ** Errors

    Go [error] values, kept structured so that wrapped errors ([%w]) stay
    inspectable. *)

Inductive numErrKind := ErrSyntax | ErrRange.

Inductive error :=
| NumError (func num : string) (kind : numErrKind)
    (* [*strconv.NumError] *)
| ExternalError (msg : string)
    (* an error reported by the operating system, the network or a child
       process *)
| Errorf (msg : string)
    (* [fmt.Errorf] without wrapped error *)
| ErrorfW (before : string) (wrapped : error) (after : string).
    (* [fmt.Errorf("before %w after", wrapped)] *)

(** ** [strconv.Atoi] *)

Module Strconv.

Definition intSize : Z := 64.
Definition maxInt : Z := 2 ^ (intSize - 1) - 1.
Definition minInt : Z := - 2 ^ (intSize - 1).

Definition digitOf (c : ascii) : option Z :=
  let n := Z.of_N (N_of_ascii c) in
  if (48 <=? n) && (n <=? 57) then Some (n - 48) else None.

(** The accumulation loop [n = n*10 + int(ch - '0')], failing on the first
    byte that is not a decimal digit. The accumulator is unbounded here;
    the bound is applied by [Atoi], which has the same outcome as Go's
    cut-off test inside the loop. *)
Fixpoint digitsValue (s : string) (acc : Z) : option Z :=
  match s with
  | EmptyString => Some acc
  | String c rest =>
      match digitOf c with
      | Some d => digitsValue rest (acc * 10 + d)
      | None => None
      end
  end.

(** [strconv.Atoi(s)]: an optional sign, then one or more decimal digits;
    a syntax error yields [0], a value outside [int] yields the nearest
    bound, both with a [*NumError]. *)
Definition Atoi (s : string) : Z * option error :=
  match s with
  | EmptyString => (0, Some (NumError "Atoi" s ErrSyntax))
  | String c rest =>
      let neg := Ascii.eqb c "-"%char in
      let body := if neg || Ascii.eqb c "+"%char then rest else s in
      match body with
      | EmptyString => (0, Some (NumError "Atoi" s ErrSyntax))
      | _ =>
          match digitsValue body 0 with
          | None => (0, Some (NumError "Atoi" s ErrSyntax))
          | Some un =>
              if neg then
                if - minInt <? un
                then (minInt, Some (NumError "Atoi" s ErrRange))
                else (- un, None)
              else
                if maxInt <? un
                then (maxInt, Some (NumError "Atoi" s ErrRange))
                else (un, None)
          end
      end
  end.

End Strconv.

(** ** VersionModel ([version.go]) *)

Record Version := mkVersion {
  Major : Z;
  Minor : Z;
  Patch : Z;
  Variant : string
}.

(** The zero value [Version{}]. *)
Definition zeroVersion : Version := mkVersion 0 0 0 EmptyString.

Definition IsZero (v : Version) : bool :=
  (Major v =? 0) && (Minor v =? 0) && (Patch v =? 0).

Definition Semver (v : Version) : string :=
  Itoa (Major v) +:+ "." +:+ Itoa (Minor v) +:+ "." +:+ Itoa (Patch v).

Definition Ge (v other : Version) : bool :=
  if negb (Major v =? Major other) then Major other <? Major v
  else if negb (Minor v =? Minor other) then Minor other <? Minor v
  else Patch other <? Patch v.

Definition Eq (v other : Version) : bool :=
  (Major v =? Major other) && (Minor v =? Minor other)
  && (Patch v =? Patch other).

Definition setMajor (v : Version) (n : Z) : Version :=
  mkVersion n (Minor v) (Patch v) (Variant v).
Definition setMinor (v : Version) (n : Z) : Version :=
  mkVersion (Major v) n (Patch v) (Variant v).
Definition setPatch (v : Version) (n : Z) : Version :=
  mkVersion (Major v) (Minor v) n (Variant v).

Definition ParseManateeVersion (v : string) : Version * option error :=
  let v := TrimSuffix v "-cnc" in
  let items := Split v "."%char in
  if (length items <? 2)%nat || (3 <? length items)%nat then
    (zeroVersion, Some (Errorf ("invalid version specifier: " +:+ v)))
  else
    let ans := zeroVersion in
    let '(n, err) := Strconv.Atoi (nth 0 items EmptyString) in
    let ans := setMajor ans n in
    match err with
    | Some e => (ans, Some e)
    | None =>
        let '(n, err) := Strconv.Atoi (nth 1 items EmptyString) in
        let ans := setMinor ans n in
        match err with
        | Some e => (ans, Some e)
        | None =>
            if (length items =? 3)%nat then
              let '(n, err) := Strconv.Atoi (nth 2 items EmptyString) in
              (setPatch ans n, err)
            else (ans, None)
        end
    end.

(** ** EnvironmentModel ([env.go])

    An [EnvironmentVars] value is a Go map: either [nil] or a reference to a
    mutable table. Tables live in a [store]; two values holding the same
    reference are the same table. *)

Abbreviation EnvironmentVars := (gmap string string).

Abbreviation loc := positive.

Inductive mapValue :=
| nilMap
| mapAt (l : loc).

Abbreviation store := (gmap loc EnvironmentVars).

(** The entries of a map value; [nil] and a dangling reference read as the
    empty map. *)
Definition contents (h : store) (m : mapValue) : EnvironmentVars :=
  match m with
  | nilMap => ∅
  | mapAt l => default ∅ (h !! l)
  end.

(** A [for k, v := range m] loop visits every entry of [m] once, in an order
    the run time chooses. The functions below take that order as an
    argument; [visits m order] says that it is a legal one. *)
Definition visits (m : EnvironmentVars) (order : list (string * string)) : Prop :=
  order ≡ₚ map_to_list m.

(** Outcome of code that can panic. *)
Inductive outcome (A : Type) :=
| Returns (a : A)
| Panics (msg : string).
Arguments Returns {A} a.
Arguments Panics {A} msg.

(** [ev.Export()]: [make([]string, len(ev))] is a slice of [len(ev)] empty
    strings, to which the loop appends one [k=v] string per entry. *)
Definition Export (ev : EnvironmentVars) (order : list (string * string))
  : list string :=
  foldl (λ ans kv, ans ++ [kv.1 +:+ "=" +:+ kv.2])
        (replicate (size ev) EmptyString) order.

(** [ev[k] = v]: a write through the reference; on a [nil] map it panics. *)
Definition mapAssign (h : store) (ev : mapValue) (k v : string)
  : outcome store :=
  match ev with
  | nilMap => Panics "assignment to entry in nil map"
  | mapAt l => Returns (<[l := <[k := v]> (contents h ev)]> h)
  end.

(** [ev.UpdateBy(other)]: the loop writes every entry of [other] into the
    table [ev] refers to; [order] is the order in which it visits the
    entries of [other]. It returns nothing; its effect is the new store. *)
Definition UpdateBy (h : store) (ev : mapValue)
    (order : list (string * string)) : outcome store :=
  foldl (λ acc kv,
           match acc with
           | Returns h' => mapAssign h' ev kv.1 kv.2
           | Panics msg => Panics msg
           end)
        (Returns h) order.

(** One exported entry, [k+"="+v]. *)
Definition assignment (kv : string * string) : string :=
  kv.1 +:+ "=" +:+ kv.2.

(** The table after the writes of [order], first to last. *)
Definition writeAll (base : EnvironmentVars) (order : list (string * string))
  : EnvironmentVars :=
  foldl (λ m kv, <[kv.1 := kv.2]> m) base order.

(** ** The command runner ([exec.Cmd], [RunCommand] and its options) *)

(** The fields of [exec.Cmd] the program sets. [Env = None] is Go's [nil]
    [Env]: the child inherits the environment of the running process. *)
Record Cmd := mkCmd {
  Path : string;
  Args : list string;
  Dir : string;
  Env : option (list string);
  StdoutIsOsStdout : bool
}.

Definition Command (name : string) (args : list string) : Cmd :=
  mkCmd name (name :: args) EmptyString None false.

Record CmdWrapper := mkCmdWrapper {
  cmd : Cmd;
  printIfErr : bool
}.

(** The options are closures over a [*CmdWrapper] in the source; here they
    are the constructors of a type, run by [applyOption]. [WithEnv] carries
    the entries its map holds when the option runs and the order in which
    [Export] will visit them. *)
Inductive RunCommandOption :=
| WithDir (dir : string)
| WithEnv (env : EnvironmentVars) (order : list (string * string))
| WithPrintIfErr
| WithPrintStdout.

Definition applyOption (opt : RunCommandOption) (cw : CmdWrapper) : CmdWrapper :=
  let c := cmd cw in
  match opt with
  | WithDir dir =>
      mkCmdWrapper (mkCmd (Path c) (Args c) dir (Env c) (StdoutIsOsStdout c))
                   (printIfErr cw)
  | WithEnv env order =>
      mkCmdWrapper (mkCmd (Path c) (Args c) (Dir c) (Some (Export env order))
                          (StdoutIsOsStdout c))
                   (printIfErr cw)
  | WithPrintIfErr => mkCmdWrapper c true
  | WithPrintStdout =>
      mkCmdWrapper (mkCmd (Path c) (Args c) (Dir c) (Env c) true)
                   (printIfErr cw)
  end.

(** The first half of [RunCommand]: wrap the command and run the options in
    order. What is returned is the command as it is then started. *)
Definition RunCommand_configured (c : Cmd) (opts : list RunCommandOption)
  : CmdWrapper :=
  foldl (λ cmdw opt, applyOption opt cmdw) (mkCmdWrapper c false) opts.

(** ** Build flags ([builder.go]) *)

Definition DefaultManateeLibPath : string := "/usr/local/lib/libmanatee.so".

(** [initV2_208]: the parsed threshold. The source panics when the parse
    fails; [initV2_208_no_panic] below shows it does not. *)
Definition initV2_208 : Version := (ParseManateeVersion "2.208").1.
Definition v2_208 : Version := initV2_208.

Section Builder.

(** Go's [path.Join] for two elements (standard library, not part of the
    repository). *)
Variable pathJoin : string → string → string.

(** Lines 146-164 of [buildProject]: the slice [subdirs] and the map
    [buildEnv] as they stand after the version branch. *)
Definition subdirs (version : Version) (manateeSrc : string) : list string :=
  let subdirs := ["-I" +:+ manateeSrc] in
  if Ge version v2_208 then
    foldl (λ subdirs dir, subdirs ++ ["-I" +:+ pathJoin manateeSrc dir])
          subdirs ["finlib"; "fsa3"; "hat-trie"]
  else subdirs.

Definition cxxFlags (manateeSrc : string) : string :=
  "-std=c++14 -I" +:+ manateeSrc +:+ "/corp -I" +:+ manateeSrc
    +:+ "/concord -I" +:+ manateeSrc +:+ "/query".

Definition buildEnv (version : Version) (manateeSrc manateeLib : string)
  : EnvironmentVars :=
  let buildEnv : EnvironmentVars := ∅ in
  if Ge version v2_208 then
    let buildEnv := <["CGO_CXXFLAGS" := cxxFlags manateeSrc]> buildEnv in
    let buildEnv :=
      <["CGO_CPPFLAGS" := Join (subdirs version manateeSrc) " "]> buildEnv in
    <["CGO_LDFLAGS" :=
        "-lmanatee -L" +:+ manateeLib +:+ " -lhat-trie -L" +:+ manateeLib
          +:+ " -lfsa3 -L" +:+ pathJoin manateeSrc "fsa3/.libs"]> buildEnv
  else
    let buildEnv := <["CGO_CXXFLAGS" := cxxFlags manateeSrc]> buildEnv in
    let buildEnv :=
      <["CGO_CPPFLAGS" := Join (subdirs version manateeSrc) " "]> buildEnv in
    <["CGO_LDFLAGS" := "-lmanatee -L" +:+ manateeLib]> buildEnv.

(** The flag set of the [else] branch: the dependency's own include path
    and its [-lmanatee -L] link flags. *)
Definition plainFlags (manateeSrc manateeLib : string) : EnvironmentVars :=
  <["CGO_LDFLAGS" := "-lmanatee -L" +:+ manateeLib]>
    (<["CGO_CPPFLAGS" := "-I" +:+ manateeSrc]>
       (<["CGO_CXXFLAGS" := cxxFlags manateeSrc]> ∅)).

(** The flag set of the [then] branch: three more include paths and the
    link flags of the two static components. *)
Definition extendedFlags (manateeSrc manateeLib : string) : EnvironmentVars :=
  <["CGO_LDFLAGS" :=
      "-lmanatee -L" +:+ manateeLib +:+ " -lhat-trie -L" +:+ manateeLib
        +:+ " -lfsa3 -L" +:+ pathJoin manateeSrc "fsa3/.libs"]>
    (<["CGO_CPPFLAGS" :=
         "-I" +:+ manateeSrc
           +:+ " " +:+ "-I" +:+ pathJoin manateeSrc "finlib"
           +:+ " " +:+ "-I" +:+ pathJoin manateeSrc "fsa3"
           +:+ " " +:+ "-I" +:+ pathJoin manateeSrc "hat-trie"]>
       (<["CGO_CXXFLAGS" := cxxFlags manateeSrc]> ∅)).

(** The three commands [buildProject] starts through [RunCommand], each
    with [WithEnv(currEnv)]; [order1..3] are the orders in which the three
    [Export] calls visit [currEnv]. *)
Definition buildProject_commands (workingDir : string)
    (currEnv : EnvironmentVars) (order1 order2 order3 : list (string * string))
    (test : bool) (buildLine : string) : list CmdWrapper :=
  [RunCommand_configured (Command "bash" ["-c"; "go generate"])
     [WithDir workingDir; WithEnv currEnv order1; WithPrintIfErr]]
  ++ (if test
      then [RunCommand_configured (Command "bash" ["-c"; "go test ./..."])
              [WithDir workingDir; WithEnv currEnv order2; WithPrintStdout]]
      else [])
  ++ [RunCommand_configured (Command "bash" ["-c"; buildLine])
        [WithDir workingDir; WithEnv currEnv order3; WithPrintIfErr]].

End Builder.

(** ** The outside world

    What the file system, the network and the child processes answer. The
    program only asks; the answers are fixed for the duration of one call. *)

Record World := mkWorld {
  (** [fs.PathExists(path)] *)
  PathExists : string → bool;
  (** [fs.IsDir(path)] *)
  IsDir : string → bool * option error;
  (** [os.ReadDir(dir)]: the entry names, in directory order *)
  ReadDir : string → list string * option error;
  (** [exec.Command("strings", libPath).CombinedOutput()] *)
  stringsOutput : string → string * option error;
  (** [os.Create(target)] *)
  osCreate : string → option error;
  (** [http.Get(url)]: a transport error or the status code of the response *)
  httpGet : string → error + Z;
  (** [io.Copy(outf, resp.Body)] for the response of [url] *)
  ioCopy : string → option error;
  (** [exec.Command("tar", "xzf", path, "-C", "/tmp").Run()] *)
  tarRun : string → option error
}.

(** The effects a call performs, in order. *)
Inductive event :=
| EvCreate (target : string)
    (* the call [os.Create(target)], before its answer is known *)
| EvHttpGet (url : string)
| EvCopy (url target : string)
| EvTar (archive : string)
| EvRemove (path : string)
| EvPrint (text : string).

(** Computations that log their effects. *)
Definition Eff (A : Type) : Type := A * list event.

Definition ret {A} (a : A) : Eff A := (a, []).
Definition bind {A B} (m : Eff A) (k : A → Eff B) : Eff B :=
  let '(a, t1) := m in
  let '(b, t2) := k a in
  (b, t1 ++ t2).
Definition perform (e : event) : Eff unit := (tt, [e]).

Declare Scope eff_scope.
Delimit Scope eff_scope with eff.
Notation "'let*' x ':=' m 'in' k" := (bind m (λ x, k))
  (at level 10, x name, m at level 100, k at level 200) : eff_scope.
Notation "'do' m 'then' k" := (bind m (λ _ : unit, k))
  (at level 10, m at level 100, k at level 200) : eff_scope.

Definition nl : string := String (ascii_of_nat 10) EmptyString.

(** ** SourceAcquirer ([conf.go]) *)

Section SourceAcquirer.
Variable w : World.
Local Open Scope eff_scope.

Definition downloadFile (url target : string) : Eff (option error) :=
  do perform (EvCreate target) then
  match osCreate w target with
  | Some err => ret (Some err)
  | None =>
      do perform (EvHttpGet url) then
      match httpGet w url with
      | inl err => ret (Some err)
      | inr StatusCode =>
          if (StatusCode <? 200) || (400 <=? StatusCode) then
            ret (Some (Errorf ("failed to download " +:+ url
                                 +:+ " with status: " +:+ Itoa StatusCode)))
          else
            do perform (EvCopy url target) then
            ret (ioCopy w url)
      end
  end.

Definition unpackArchive (path : string) : Eff (option error) :=
  do perform (EvTar path) then
  match tarRun w path with
  | Some err =>
      do perform (EvRemove path) then
      do perform (EvPrint ("removing archive " +:+ path
                          +:+ " due to an error" +:+ nl)) then
      ret (Some (ErrorfW ("failed to unpack file " +:+ path +:+ ": ")
                         err EmptyString))
  | None => ret None
  end.

(** [fmt.Errorf(errTpl, err)] *)
Definition errTpl (err : error) : error :=
  ErrorfW "Failed to download and extract manatee-open: " err
          ". Please do this manually and run the script with --manatee-src".

Definition mirror1 (ver : Version) : string :=
  "https://corpora.fi.muni.cz/noske/src/manatee-open/manatee-open-"
    +:+ Semver ver +:+ ".tar.gz".
Definition mirror2 (ver : Version) : string :=
  "https://corpora.fi.muni.cz/noske/src/manatee-open/archive/manatee-open-"
    +:+ Semver ver +:+ ".tar.gz".
Definition mirror3 (ver : Version) : string :=
  "http://corpora.fi.muni.cz/noske/current/src/manatee-open-"
    +:+ Semver ver +:+ ".tar.gz".

Definition cacheDir (ver : Version) : string :=
  "/tmp/manatee-open-" +:+ Semver ver.
Definition cacheArchive (ver : Version) : string :=
  "/tmp/manatee-open-" +:+ Semver ver +:+ ".tar.gz".

(** The nested [if err = downloadFile(...); err != nil] blocks: the next
    mirror is tried only when the previous download returned an error. *)
Definition tryMirrors (ver : Version) (outFile : string)
  : Eff (option error) :=
  let* err := downloadFile (mirror1 ver) outFile in
  match err with
  | None => ret None
  | Some _ =>
      let* err := downloadFile (mirror2 ver) outFile in
      match err with
      | None => ret None
      | Some _ => downloadFile (mirror3 ver) outFile
      end
  end.

(** [path.Base(outFile)] is written out: [Semver] has no slash. *)
Definition downloadManateeSrc (ver : Version) : Eff (string * option error) :=
  let outDir := cacheDir ver in
  let '(isDir, err) := IsDir w outDir in
  match err with
  | Some err =>
      ret (EmptyString,
           Some (ErrorfW ("failed to explore directory " +:+ outDir +:+ ": ")
                         err EmptyString))
  | None =>
      if isDir then
        do perform (EvPrint ("found existing manatee directory in "
                               +:+ outDir +:+ nl)) then
        ret (outDir, None)
      else
        let outFile := cacheArchive ver in
        do perform (EvPrint (nl +:+ "Looking for manatee-open-"
                               +:+ Semver ver +:+ ".tar.gz" +:+ nl)) then
        let* err := (if negb (PathExists w outFile)
                     then tryMirrors ver outFile
                     else ret None) in
        match err with
        | Some err => ret (EmptyString, Some (errTpl err))
        | None =>
            let* err := unpackArchive outFile in
            match err with
            | Some err => ret (EmptyString, Some (errTpl err))
            | None => ret (outDir, None)
            end
        end
  end.

End SourceAcquirer.

(** ** VersionResolver ([version.go], [cmd.go]) *)

Definition KnownVersions : list string :=
  ["2.167.8"; "2.167.10"; "2.208"; "2.214.1"; "2.223.6"; "2.225.8"].

(** [collections.SliceContains] *)
Definition SliceContains (items : list string) (x : string) : bool :=
  existsb (String.eqb x) items.

Module Regexp.

(** The class [\s] of Go's regular expressions: tab, line feed, form feed,
    carriage return and space. *)
Definition isSpace (c : ascii) : bool :=
  let n := nat_of_ascii c in
  ((n =? 9) || (n =? 10) || (n =? 12) || (n =? 13) || (n =? 32))%nat.

(** The longest run of non-space bytes at the start of [s]: what the greedy
    [[^\s]+] takes. *)
Fixpoint takeNonSpace (s : string) : string :=
  match s with
  | EmptyString => EmptyString
  | String c rest =>
      if isSpace c then EmptyString else String c (takeNonSpace rest)
  end.

(** [afterPrefix pre s]: the rest of [s] behind its prefix [pre]. *)
Fixpoint afterPrefix (pre s : string) : option string :=
  match pre, s with
  | EmptyString, _ => Some s
  | String a pre', String b s' =>
      if Ascii.eqb a b then afterPrefix pre' s' else None
  | String _ _, EmptyString => None
  end.

(** [VerSrchPtrn.FindStringSubmatch(s)] for the pattern
    [open-([^\s]+)]: the leftmost match, as the slice of the whole match
    and the text of its one group; the empty ([nil]) slice when the
    pattern matches nowhere. *)
Fixpoint FindStringSubmatch (s : string) : list string :=
  match s with
  | EmptyString => []
  | String _ rest =>
      match afterPrefix "open-" s with
      | Some tail =>
          match takeNonSpace tail with
          | EmptyString => FindStringSubmatch rest
          | group => ["open-" +:+ group; group]
          end
      | None => FindStringSubmatch rest
      end
  end.

End Regexp.

(** [sort.SliceStable(xs, less)]: a stable sort, here by insertion. *)
Fixpoint insertStable {A} (less : A → A → bool) (x : A) (sorted : list A)
  : list A :=
  match sorted with
  | [] => [x]
  | y :: ys => if less y x then y :: insertStable less x ys else x :: y :: ys
  end.

Definition SliceStable {A} (less : A → A → bool) (xs : list A) : list A :=
  foldr (insertStable less) [] xs.

(** Lines 168-176 of [main]: how the run goes on after autodetection. *)
Inductive detection :=
| Crashed (msg : string)
    (* the panic leaves [main] *)
| Exit (code : Z) (stderr : string) (cause : option error)
    (* [os.Exit(code)] after printing [stderr], a format with the place of
       [cause] marked by a percent sign *)
| Proceeds (detectedVersion : Version).

Section VersionResolver.
Variable pathJoin : string → string → string.
Variable w : World.

Definition findLatestManateeInOpt (knownVersions : list string)
  : Version * option error :=
  let '(entries, err) := ReadDir w "/opt/manatee" in
  match err with
  | Some err =>
      (zeroVersion,
       Some (ErrorfW
               "no default Manatee found and failed to list manatee versions is /opt/manatee: "
               err EmptyString))
  | None =>
      let foundVersions :=
        foldl (λ foundVersions name,
                 match ParseManateeVersion name with
                 | (v, None) =>
                     if SliceContains knownVersions (Semver v)
                     then foundVersions ++ [v]
                     else foundVersions
                 | (_, Some _) => foundVersions
                 end)
              [] entries in
      if (0 <? length foundVersions)%nat then
        let foundVersions :=
          SliceStable (λ vi vj, Ge vj vi) foundVersions in
        (List.last foundVersions zeroVersion, None)
      else (zeroVersion, None)
  end.

(** The local [libPath] of [AutodetectManateeVersion]. *)
Definition libPathOf (specPath : string) : string :=
  if negb (String.eqb specPath EmptyString)
  then pathJoin specPath "libmanatee.so"
  else DefaultManateeLibPath.

Definition AutodetectManateeVersion (specPath : string)
    (knownVersions : list string) : outcome (Version * option error) :=
  let libPath := libPathOf specPath in
  if PathExists w libPath then
    let '(out, err) := stringsOutput w libPath in
    match err with
    | None =>
        let srch := Regexp.FindStringSubmatch out in
        match srch !! 1%nat with
        | Some text => Returns (ParseManateeVersion text)
        | None => Panics "index out of range [1] with length 0"
        end
    | Some _ =>
        Returns (zeroVersion,
                 Some (Errorf ("failed to run `strings " +:+ libPath +:+ "`")))
    end
  else Returns (findLatestManateeInOpt knownVersions).

Definition main_detect (manateeLib : string) : detection :=
  match AutodetectManateeVersion manateeLib KnownVersions with
  | Panics msg => Crashed msg
  | Returns (detectedVersion, Some err) =>
      Exit 1 ("Failed to find manatee-open or determine its version: %s" +:+ nl)
           (Some err)
  | Returns (detectedVersion, None) =>
      if IsZero detectedVersion then
        Exit 1 ("Autodetection has not found any suitable Manatee version. "
                  +:+ "Please select one manually" +:+ nl) None
      else Proceeds detectedVersion
  end.

End VersionResolver.

(** ** Vocabulary of the statements *)

(** A directory entry qualifies when its name parses as a version whose
    canonical string is on the allow-list. *)
Definition qualifies (knownVersions : list string) (name : string) : bool :=
  match ParseManateeVersion name with
  | (v, None) => SliceContains knownVersions (Semver v)
  | (_, Some _) => false
  end.

(** A download succeeds when the target file can be created, the mirror
    answers with a status from 200 to 399 and the body is copied whole. *)
Definition downloadOk (w : World) (url target : string) : bool :=
  match osCreate w target, httpGet w url, ioCopy w url with
  | None, inr StatusCode, None => (200 <=? StatusCode) && (StatusCode <? 400)
  | _, _, _ => false
  end.

(** The URLs requested over the network, in order. *)
Definition requests (trace : list event) : list string :=
  omap (λ e, match e with EvHttpGet url => Some url | _ => None end) trace.

(** The archives handed to [tar], in order. *)
Definition extractions (trace : list event) : list string :=
  omap (λ e, match e with EvTar archive => Some archive | _ => None end) trace.

(** The error texts that send the operator to [--manatee-src]. *)
Definition manualOverrideError (err : option error) : Prop :=
  ∃ cause, err = Some (errTpl cause).

(** A numeric component, read as the words say: one or more decimal
    digits. *)
Definition isDigit (c : ascii) : bool :=
  let n := Z.of_N (N_of_ascii c) in (48 <=? n) && (n <=? 57).

Fixpoint allDigits (s : string) : bool :=
  match s with
  | EmptyString => true
  | String c rest => isDigit c && allDigits rest
  end.

Definition numeric (s : string) : bool :=
  negb (String.eqb s EmptyString) && allDigits s.

(** Strings made of digits and dots. *)
Fixpoint digitsAndDots (s : string) : bool :=
  match s with
  | EmptyString => true
  | String c rest => (isDigit c || Ascii.eqb c "."%char) && digitsAndDots rest
  end.

(** The number a run of decimal digits denotes, read from the left. *)
Fixpoint decimalValueFrom (acc : Z) (s : string) : Z :=
  match s with
  | EmptyString => acc
  | String c rest =>
      decimalValueFrom (acc * 10 + (Z.of_N (N_of_ascii c) - 48)) rest
  end.

Definition decimalValue (s : string) : Z := decimalValueFrom 0 s.

(** A numeral in normal form: digits without a leading zero, or the one
    digit zero. *)
Definition canonical (s : string) : bool :=
  numeric s
  && (String.eqb s "0"
      || match s with
         | String c _ => negb (Ascii.eqb c "0"%char)
         | EmptyString => false
         end).

(** A decimal numeral of Go's [int]: an optional sign, one or more digits,
    and a value from [minInt] to [maxInt]. *)
Definition intNumeral (s : string) : bool :=
  match s with
  | EmptyString => false
  | String c rest =>
      if Ascii.eqb c "-"%char
      then numeric rest && (decimalValue rest <=? - Strconv.minInt)
      else if Ascii.eqb c "+"%char
      then numeric rest && (decimalValue rest <=? Strconv.maxInt)
      else numeric s && (decimalValue s <=? Strconv.maxInt)
  end.

(** The components of a version string: what is between the dots once the
    custom-build suffix is off. *)
Definition components (input : string) : list string :=
  Split (TrimSuffix input "-cnc") "."%char.

(** ** Sample worlds, for running the definitions *)

(** [path.Join] on two clean path elements: the two with a slash between. *)
Definition joinClean (dir name : string) : string := dir +:+ "/" +:+ name.

(** Nothing installed, nothing cached, every mirror answers 404. *)
Definition bareWorld : World :=
  mkWorld (λ _, false)
          (λ _, (false, None))
          (λ _, ([], None))
          (λ _, (EmptyString, Some (ExternalError "exit status 1")))
          (λ _, None)
          (λ _, inr 404)
          (λ _, None)
          (λ _, None).

(** A library under [/opt/build/lib] whose strings carry no version marker. *)
Definition worldWithoutMarker : World :=
  mkWorld (λ path, String.eqb path "/opt/build/lib/libmanatee.so")
          (IsDir bareWorld) (ReadDir bareWorld)
          (λ _, ("GCC: (GNU) 12.2.0 libmanatee.so.0 open- source", None))
          (osCreate bareWorld) (httpGet bareWorld) (ioCopy bareWorld)
          (tarRun bareWorld).

(** No library in the default place; [/opt/manatee] lists [entries]. *)
Definition worldWithOptEntries (entries : list string) : World :=
  mkWorld (PathExists bareWorld) (IsDir bareWorld)
          (λ _, (entries, None))
          (stringsOutput bareWorld)
          (osCreate bareWorld) (httpGet bareWorld) (ioCopy bareWorld)
          (tarRun bareWorld).

(** Mirrors answering with the status [status url]; [tar] answers [tar]. *)
Definition worldWithMirrors (status : string → Z) (tar : option error) : World :=
  mkWorld (PathExists bareWorld) (IsDir bareWorld) (ReadDir bareWorld)
          (stringsOutput bareWorld) (osCreate bareWorld)
          (λ url, inr (status url))
          (ioCopy bareWorld)
          (λ _, tar).

(** The cache directory of every version is there. *)
Definition worldWithCache : World :=
  mkWorld (PathExists bareWorld)
          (λ _, (true, None))
          (ReadDir bareWorld) (stringsOutput bareWorld) (osCreate bareWorld)
          (httpGet bareWorld) (ioCopy bareWorld) (tarRun bareWorld).

(** Only the third mirror has the archive of 2.214.1. *)
Definition worldThirdMirrorOnly : World :=
  worldWithMirrors
    (λ url, if String.eqb url (mirror3 (mkVersion 2 214 1 EmptyString))
            then 200 else 404)
    None.

(** Every mirror has the archive, but it does not unpack. *)
Definition worldBrokenArchive : World :=
  worldWithMirrors (λ _, 200) (Some (ExternalError "exit status 2")).

(** ** Vocabulary of the further properties *)

(** A Go [int]. *)
Definition isInt (n : Z) : Prop := Strconv.minInt ≤ n ≤ Strconv.maxInt.

(** A [Version] as Go can hold it: its three fields are [int]s. *)
Definition goVersion (v : Version) : Prop :=
  isInt (Major v) ∧ isInt (Minor v) ∧ isInt (Patch v).

(** The numeric triple of a version. *)
Definition triple (v : Version) : Z * Z * Z := (Major v, Minor v, Patch v).

(** [v] without its variant. *)
Definition plain (v : Version) : Version :=
  mkVersion (Major v) (Minor v) (Patch v) EmptyString.

Fixpoint noDot (s : string) : bool :=
  match s with
  | EmptyString => true
  | String c rest => negb (Ascii.eqb c "."%char) && noDot rest
  end.

Fixpoint endsWithDigit (s : string) : bool :=
  match s with
  | EmptyString => false
  | String c EmptyString => isDigit c
  | String _ rest => endsWithDigit rest
  end.

(** [a <= b] in the order of [Ge]: [a] is not above [b]. *)
Definition notAbove (a b : Version) : Prop := Ge a b = false.

(** The versions [findLatestManateeInOpt] collects from the entry names, in
    directory order. *)
Definition foundVersionsOf (knownVersions entries : list string)
  : list Version :=
  foldl (λ foundVersions name,
           match ParseManateeVersion name with
           | (v, None) =>
               if SliceContains knownVersions (Semver v)
               then foundVersions ++ [v]
               else foundVersions
           | (_, Some _) => foundVersions
           end)
        [] entries.

(** The triples of the five allow-list entries that have three
    components. *)
Definition admittedTriples : list (Z * Z * Z) :=
  [(2, 167, 8); (2, 167, 10); (2, 214, 1); (2, 223, 6); (2, 225, 8)].

(** [Version.String] ([version.go]); the local [vs] starts empty and the
    source prepends the dash to [vs] itself. *)
Definition Version_String (v : Version) : string :=
  let vs := EmptyString in
  let vs := if negb (String.eqb (Variant v) EmptyString)
            then "-" +:+ vs else vs in
  "manatee-open-" +:+ Itoa (Major v) +:+ "." +:+ Itoa (Minor v)
    +:+ "." +:+ Itoa (Patch v) +:+ vs.

(** Text without white space, in the sense of the pattern's [\s]. *)
Fixpoint noSpace (s : string) : bool :=
  match s with
  | EmptyString => true
  | String c rest => negb (Regexp.isSpace c) && noSpace rest
  end.

(** Text that is empty or starts with white space: where a match of
    [[^\s]+] ends. *)
Definition endsMatch (after : string) : bool :=
  match after with
  | EmptyString => true
  | String c _ => Regexp.isSpace c
  end.

(** ** More of [env.go]: reading the process environment *)

(** [strings.SplitN(s, sep, 2)] for a one-byte separator: the text before
    the first separator and the text behind it, or [s] alone when it has no
    separator. *)
Fixpoint SplitN2 (s : string) (sep : ascii) : list string :=
  match s with
  | EmptyString => [EmptyString]
  | String c rest =>
      if Ascii.eqb c sep then [EmptyString; rest]
      else match SplitN2 rest sep with
           | [head; tail] => [String c head; tail]
           | _ => [s]
           end
  end.

(** The body of the loop of [GetEnvironmentVars]:
    [item := strings.SplitN(env, "=", 2); parsed[item[0]] = item[1]].
    Indexing [item[1]] panics when the entry has no equals sign. *)
Definition parseEntry (acc : outcome EnvironmentVars) (env : string)
  : outcome EnvironmentVars :=
  match acc with
  | Returns parsed =>
      let item := SplitN2 env "="%char in
      match item !! 0%nat, item !! 1%nat with
      | Some key, Some value => Returns (<[key := value]> parsed)
      | _, _ => Panics "index out of range [1] with length 1"
      end
  | Panics msg => Panics msg
  end.

(** [GetEnvironmentVars()], with [os.Environ()] as argument. The map it
    makes is new; what is returned here is its table. *)
Definition GetEnvironmentVars (environ : list string)
  : outcome EnvironmentVars :=
  foldl parseEntry (Returns ∅) environ.

(** Lines 179-180 of [buildProject]: [currEnv := GetEnvironmentVars()]
    followed by [currEnv.UpdateBy(buildEnv)], the new map placed at the
    reference [l] of the store; the result is the table of [currEnv]
    afterwards. *)
Definition buildProject_currEnv (h : store) (l : loc) (environ : list string)
    (buildEnv : EnvironmentVars) (order : list (string * string))
  : outcome EnvironmentVars :=
  match GetEnvironmentVars environ with
  | Returns parsed =>
      match UpdateBy (<[l := parsed]> h) (mapAt l) order with
      | Returns h' => Returns (contents h' (mapAt l))
      | Panics msg => Panics msg
      end
  | Panics msg => Panics msg
  end.

Fixpoint hasEquals (s : string) : bool :=
  match s with
  | EmptyString => false
  | String c rest => Ascii.eqb c "="%char || hasEquals rest
  end.

(** The key and the value of an environment entry: the text before its
    first equals sign and the text behind it. *)
Fixpoint entryPair (s : string) : string * string :=
  match s with
  | EmptyString => (EmptyString, EmptyString)
  | String c rest =>
      if Ascii.eqb c "="%char then (EmptyString, rest)
      else (String c (entryPair rest).1, (entryPair rest).2)
  end.

(** The paths [os.Create] was called on, in order, whether or not the call
    succeeded. *)
Definition createCalls (trace : list event) : list string :=
  omap (λ e, match e with EvCreate target => Some target | _ => None end) trace.


(** The files removed, in order. *)

Definition removals (trace : list event) : list string :=
  omap (λ e, match e with EvRemove path => Some path | _ => None end) trace.

(** The response bodies written to a file, as pairs of URL and target. *)
Definition copies (trace : list event) : list (string * string) :=
  omap (λ e, match e with EvCopy url target => Some (url, target) | _ => None end)
       trace.

(** ** More of [builder.go]: preparing the sources *)

(** What the file system and the child processes answer to
    [initManateeSources] and [buildProject]. *)
Record BuildWorld := mkBuildWorld {
  (** [fs.IsFile(path)] *)
  IsFile : string → bool * option error;
  (** [cmd.Run()], or [cmd.CombinedOutput()], of a command as configured *)
  cmdRun : Cmd → option error
}.

(** [cmd.Dir = dir] and [cmd.Env = env] *)
Definition setDir (c : Cmd) (dir : string) : Cmd :=
  mkCmd (Path c) (Args c) dir (Env c) (StdoutIsOsStdout c).
Definition setEnv (c : Cmd) (env : list string) : Cmd :=
  mkCmd (Path c) (Args c) (Dir c) (Some env) (StdoutIsOsStdout c).

Section InitSources.
Variable pathJoin : string → string → string.
Variable bw : BuildWorld.

Definition makeClean (env : list string) (manateeSrc : string) : Cmd :=
  setEnv (setDir (Command "make" ["clean"]) manateeSrc) env.

Definition configure (env : list string) (manateeSrc : string) : Cmd :=
  setDir (setEnv (Command "./configure"
                    ["--with-pcre"; "--disable-python"; "--disable-pthread"])
                 env)
         manateeSrc.

Definition makeIn (dir : string) : Cmd := setDir (Command "make" []) dir.

(** [initManateeSources]: the returned error and the commands it started,
    in order. [environ] is [os.Environ()]; [order1] and [order2] are the
    orders in which the two [Export] calls visit [env]. *)
Definition initManateeSources (environ : list string)
    (order1 order2 : list (string * string))
    (version : Version) (manateeSrc : string)
  : outcome (option error * list Cmd) :=
  let '(isFile, err) := IsFile bw (pathJoin manateeSrc "config.hh") in
  match err with
  | Some err =>
      Returns (Some (ErrorfW "failed to test for config.hh: " err EmptyString),
               [])
  | None =>
      match GetEnvironmentVars environ with
      | Panics msg => Panics msg
      | Returns env =>
          let clean := makeClean (Export env order1) manateeSrc in
          let cleanErr := if isFile then cmdRun bw clean else None in
          let started := if isFile then [clean] else [] in
          match cleanErr with
          | Some err =>
              Returns (Some (ErrorfW "failed to run `make clean`: " err
                                     EmptyString),
                       started)
          | None =>
              let cmd := configure (Export env order2) manateeSrc in
              let started := started ++ [cmd] in
              match cmdRun bw cmd with
              | Some err => Returns (Some err, started)
              | None =>
                  if Ge version v2_208 then
                    let cmd := makeIn (pathJoin manateeSrc "hat-trie") in
                    let started := started ++ [cmd] in
                    match cmdRun bw cmd with
                    | Some err => Returns (Some err, started)
                    | None =>
                        let cmd := makeIn (pathJoin manateeSrc "fsa3") in
                        Returns (cmdRun bw cmd, started ++ [cmd])
                    end
                  else Returns (None, started)
              end
          end
      end
  end.

(** The commands of a full run, as the source lists them. *)
Definition initCommands (isFile : bool) (env : EnvironmentVars)
    (order1 order2 : list (string * string))
    (version : Version) (manateeSrc : string) : list Cmd :=
  (if isFile then [makeClean (Export env order1) manateeSrc] else [])
  ++ [configure (Export env order2) manateeSrc]
  ++ (if Ge version v2_208
      then [makeIn (pathJoin manateeSrc "hat-trie");
            makeIn (pathJoin manateeSrc "fsa3")]
      else []).

(** A list of commands run one after the other, up to and including the
    first that fails. *)
Fixpoint untilFirstFailure (cmds : list Cmd) : list Cmd :=
  match cmds with
  | [] => []
  | c :: rest =>
      match cmdRun bw c with
      | None => c :: untilFirstFailure rest
      | Some _ => [c]
      end
  end.

End InitSources.

(** ** More of [cmd.go]: choosing the version and locating the library *)

(** [strings.HasPrefix(s, prefix)] *)
Definition HasPrefix (s prefix : string) : bool := String.prefix prefix s.

Section Locate.
Variable pathJoin : string → string → string.
Variable w : World.

(** [findManatee(version)]; [pathJoin] stands for [filepath.Join]. *)
Definition findManatee (version : Version) : string :=
  if PathExists w "/usr/lib/libmanatee.so" then "/usr/lib"
  else if PathExists w "/usr/local/lib/libmanatee.so" then "/usr/local/lib"
  else
    let optInstPath := "/opt/manatee/" +:+ Semver version +:+ "/lib" in
    if PathExists w (pathJoin optInstPath "libmanatee.so") then optInstPath
    else EmptyString.

(** Lines 177-203 of [main]: the version the run is for. *)
Definition main_specify (arg1 : string) (detectedVersion : Version)
  : detection :=
  let '(specifiedVersion, err) :=
    if negb (String.eqb arg1 EmptyString)
    then ParseManateeVersion arg1
    else (detectedVersion, None) in
  match err with
  | Some _ => Exit 1 "Failed to parse specified version" None
  | None =>
      if negb (SliceContains KnownVersions (Semver specifiedVersion)) then
        Exit 1 ("Unsupported version: %s. Please use one of: "
                  +:+ Join KnownVersions ", " +:+ nl) None
      else Proceeds specifiedVersion
  end.

(** Why the first operation of [main] calls [ctx.Fail], which ends the
    process with status 1. *)
Inductive locateFailure :=
| AcquisitionFailed (err : error)
| LibraryNotFound
| VersionMismatch (found expected : Version).

Inductive located :=
| LocateFails (why : locateFailure)
| Located (manateeSrc manateeLib : string) (shouldGenerateRunScript : bool).

(** Lines 212-269 of [main], the operation [searching for manatee-open]:
    its outcome and the effects of the download it may perform.
    [manateeSrc] and [manateeLib] are the values of the two flags. *)
Definition main_locate (manateeSrc manateeLib : string)
    (specifiedVersion detectedVersion : Version) : located * list event :=
  let '((src, err), trace) :=
    if String.eqb manateeSrc EmptyString
    then downloadManateeSrc w specifiedVersion
    else ((manateeSrc, None), []) in
  match err with
  | Some err => (LocateFails (AcquisitionFailed err), trace)
  | None =>
      let found :=
        if String.eqb manateeLib EmptyString then
          let lib := findManatee specifiedVersion in
          if String.eqb lib EmptyString then inl LibraryNotFound
          else if negb (Eq specifiedVersion detectedVersion)
          then inl (VersionMismatch detectedVersion specifiedVersion)
          else inr lib
        else inr manateeLib in
      match found with
      | inl why => (LocateFails why, trace)
      | inr lib =>
          (Located src lib (negb (HasPrefix lib "/usr/local/lib")), trace)
      end
  end.

End Locate.

(** ** More of [cmd.go] and [builder.go]: the header and the build run *)

(** The closure [repeatStr] of [mkHeader]: [n] copies of [str], none when
    [n] is not positive. *)
Definition repeatStr (str : string) (n : Z) : string :=
  Nat.iter (Z.to_nat n) (λ b, b +:+ str) EmptyString.

(** [mkHeader]: the three lines it prints, for the values of the package
    variables [version], [buildDate] and [gitCommit]. *)
Definition mkHeader (version buildDate gitCommit : string) : list string :=
  let verInfo :=
    "|  manabuild " +:+ version +:+ ", build date: " +:+ buildDate
      +:+ ", last commit: " +:+ gitCommit +:+ "  |" in
  let hd :=
    "+" +:+ repeatStr "-" (Z.of_nat (String.length verInfo) - 2) +:+ "+" in
  [hd; verInfo; hd].

(** The double quote, for texts that hold one. *)
Definition dq : string := String (ascii_of_nat 34) EmptyString.

(** [strings.Contains(s, substr)] *)
Fixpoint Contains (s substr : string) : bool :=
  String.prefix substr s
  || match s with
     | EmptyString => false
     | String _ rest => Contains rest substr
     end.

(** The tab, the [linePrefix] of [buildEnv.Print]. *)
Definition tab : string := String (ascii_of_nat 9) EmptyString.

Section BuildRun.
Variable pathJoin : string → string → string.
(** [filepath.Join] of three elements *)
Variable pathJoin3 : string → string → string → string.
(** [strings.TrimSpace] *)
Variable TrimSpace : string → string.
(** The [color] library: [color.HiGreenString("%s%s", a, b)] is
    [HiGreenString (a +:+ b)], the text between two escape sequences, or
    the text alone when colours are off; [colorSet] and [colorUnset] are
    what [color.Set(color.FgGreen)] and [color.Unset()] write to standard
    output, an escape sequence each, or nothing. *)
Variable HiGreenString : string → string.
Variable colorSet colorUnset : string.
Variable bw : BuildWorld.
(** The bytes [cmd.CombinedOutput()] returns for a command; the error it
    returns with them is [cmdRun bw]. *)
Variable combinedOutput : Cmd → string.

(** The two commands that ask [git], as [getVersionInfo] and
    [getCommitInfo] set them up. *)
Definition gitDescribe (workingDir : string) : Cmd :=
  setDir (Command "git" ["describe"; "--tags"]) workingDir.

Definition gitRevParse (workingDir : string) : Cmd :=
  setDir (Command "git" ["rev-parse"; "--short"; "HEAD"]) workingDir.

Definition getCommitInfo (workingDir : string) : string * option error :=
  let cmd := gitRevParse workingDir in
  let out := combinedOutput cmd in
  let err := cmdRun bw cmd in
  let err :=
    match err with
    | Some err =>
        Some (ErrorfW "failed to obtain git commit info: " err EmptyString)
    | None => None
    end in
  (TrimSpace out, err).

Definition getVersionInfo (workingDir : string) : string * option error :=
  let cmd := gitDescribe workingDir in
  let out := combinedOutput cmd in
  let err := cmdRun bw cmd in
  let strOut := TrimSpace out in
  match err with
  | Some err =>
      if Contains strOut "No names found" then ("v0.0.0", None)
      else (strOut,
            Some (ErrorfW "failed get version info: " err EmptyString))
  | None => (strOut, None)
  end.

(** The line [buildProject] hands to [bash -c] for the build. *)
Definition buildLine (ver dt commit workingDir binaryName cmdDir : string)
  : string :=
  let ldFlags :=
    "-w -s -X main.version='" +:+ ver +:+ "' -X main.buildDate='" +:+ dt
      +:+ "' -X main.gitCommit='" +:+ commit +:+ "'" in
  let cmdDirStr :=
    if negb (String.eqb cmdDir EmptyString)
    then "./" +:+ pathJoin3 workingDir "cmd" cmdDir
    else EmptyString in
  "go build -o " +:+ binaryName +:+ " -ldflags " +:+ dq +:+ ldFlags +:+ dq
    +:+ " " +:+ cmdDirStr.

(** The line the loop of [prepareOnly] prints for one variable, and the
    line [EnvironmentVars.Print] prints for one. *)
Definition exportLine (kv : string * string) : string :=
  "export " +:+ kv.1 +:+ "=" +:+ dq +:+ kv.2 +:+ dq +:+ nl.

Definition printLine (linePrefix : string) (kv : string * string) : string :=
  HiGreenString (linePrefix +:+ kv.1) +:+ "=" +:+ kv.2 +:+ nl.

(** [EnvironmentVars.Print(linePrefix)], the loop running in [order]: the
    texts written to standard output. *)
Definition EnvironmentVars_Print (order : list (string * string))
    (linePrefix : string) : list string :=
  map (printLine linePrefix) order.

(** What a call of [buildProject] did: the error it returned, the commands
    it started, in order, and the texts it wrote itself to standard
    output, in order. What goes to standard error (titles, the spinner, the
    report of a failed command) is not recorded, nor is what the started
    commands write. *)
Record buildRun := mkBuildRun {
  buildErr : option error;
  buildStarted : list Cmd;
  buildStdout : list string
}.

(** [buildProject]. [dt] is the result of [getCurrentDatetime];
    [environ] is [os.Environ()]; [printOrder] is the order in which the
    loop that prints [buildEnv] runs (the one of [prepareOnly], or the one
    of [Print]), [updateOrder] that of the loop of [UpdateBy], [order1..3]
    those of the [Export] calls of the three commands. *)
Definition buildProject (dt : string) (environ : list string)
    (printOrder updateOrder order1 order2 order3 : list (string * string))
    (version : Version)
    (workingDir manateeSrc manateeLib : string) (test : bool)
    (binaryName cmdDir : string) (prepareOnly : bool) : outcome buildRun :=
  let '(ver, err) := getVersionInfo workingDir in
  let started := [gitDescribe workingDir] in
  match err with
  | Some err => Returns (mkBuildRun (Some err) started [])
  | None =>
      let '(commit, err) := getCommitInfo workingDir in
      let started := started ++ [gitRevParse workingDir] in
      match err with
      | Some err => Returns (mkBuildRun (Some err) started [])
      | None =>
          let buildEnv := buildEnv pathJoin version manateeSrc manateeLib in
          if prepareOnly then
            Returns (mkBuildRun None started (map exportLine printOrder))
          else
            let stdout :=
              [colorSet] ++ EnvironmentVars_Print printOrder tab
                ++ [colorUnset] in
            match buildProject_currEnv ∅ 1%positive environ buildEnv
                    updateOrder with
            | Panics msg => Panics msg
            | Returns currEnv =>
                let generate :=
                  RunCommand_configured (Command "bash" ["-c"; "go generate"])
                    [WithDir workingDir; WithEnv currEnv order1;
                     WithPrintIfErr] in
                let started := started ++ [cmd generate] in
                match cmdRun bw (cmd generate) with
                | Some err => Returns (mkBuildRun (Some err) started stdout)
                | None =>
                    let tests :=
                      RunCommand_configured
                        (Command "bash" ["-c"; "go test ./..."])
                        [WithDir workingDir; WithEnv currEnv order2;
                         WithPrintStdout] in
                    let testErr := if test then cmdRun bw (cmd tests)
                                   else None in
                    let started :=
                      started ++ (if test then [cmd tests] else []) in
                    match testErr with
                    | Some err =>
                        Returns (mkBuildRun (Some err) started stdout)
                    | None =>
                        let build :=
                          RunCommand_configured
                            (Command "bash"
                               ["-c";
                                buildLine ver dt commit workingDir binaryName
                                  cmdDir])
                            [WithDir workingDir; WithEnv currEnv order3;
                             WithPrintIfErr] in
                        Returns (mkBuildRun (cmdRun bw (cmd build))
                                   (started ++ [cmd build]) stdout)
                    end
                end
            end
      end
  end.

(** The commands of a full build run, as the source lists them. *)
Definition buildCommands (ver dt commit : string) (currEnv : EnvironmentVars)
    (order1 order2 order3 : list (string * string))
    (workingDir : string) (test : bool) (binaryName cmdDir : string)
  : list Cmd :=
  map cmd (buildProject_commands workingDir currEnv order1 order2 order3 test
             (buildLine ver dt commit workingDir binaryName cmdDir)).

End BuildRun.

(** The commands [unpackArchive] ([conf.go], line 122) and
    [AutodetectManateeVersion] ([version.go], line 108) start; [tarRun w path]
    and [stringsOutput w libPath] are what the world answers to them. *)
Definition tarCommand (path : string) : Cmd :=
  Command "tar" ["xzf"; path; "-C"; "/tmp"].

Definition stringsCommand (libPath : string) : Cmd :=
  Command "strings" [libPath].

(** * Properties *)

(** ** Sanity checks of the embedding on the program's own constants *)

Example parse_2_208 :
  ParseManateeVersion "2.208" = (mkVersion 2 208 0 EmptyString, None).
Proof. reflexivity. Qed.

Example parse_three_components :
  ParseManateeVersion "2.223.6" = (mkVersion 2 223 6 EmptyString, None).
Proof. reflexivity. Qed.

Example parse_signed_component :
  ParseManateeVersion "1.+5" = (mkVersion 1 5 0 EmptyString, None).
Proof. reflexivity. Qed.

Example parse_one_component :
  (ParseManateeVersion "2208").2 = Some (Errorf "invalid version specifier: 2208").
Proof. reflexivity. Qed.

Example semver_2_208 : Semver (mkVersion 2 208 0 EmptyString) = "2.208.0".
Proof. reflexivity. Qed.

(** [initV2_208] does not panic: the threshold parses. *)
Lemma initV2_208_no_panic : (ParseManateeVersion "2.208").2 = None.
Proof. reflexivity. Qed.


Example find_marker :
  Regexp.FindStringSubmatch "GCC 12 open- manatee-open-2.223.6 tail"
  = ["open-2.223.6"; "2.223.6"].
Proof. reflexivity. Qed.

Example find_no_marker : Regexp.FindStringSubmatch "GCC: (GNU) 12.2.0" = [].
Proof. reflexivity. Qed.

(** ** Version comparison *)

Section Comparison.

(** [Ge] is the strict lexicographic order on the triple, in spite of its
    name. *)
Lemma Ge_spec (a b : Version) :
  Ge a b = true ↔
  Major b < Major a
  ∨ (Major a = Major b ∧ Minor b < Minor a)
  ∨ (Major a = Major b ∧ Minor a = Minor b ∧ Patch b < Patch a).
Proof.
  unfold Ge.
  destruct (Z.eqb_spec (Major a) (Major b)) as [HM|HM]; simpl.
  - destruct (Z.eqb_spec (Minor a) (Minor b)) as [Hm|Hm]; simpl;
      rewrite Z.ltb_lt; lia.
  - rewrite Z.ltb_lt; lia.
Qed.

Lemma Eq_spec (a b : Version) :
  Eq a b = true ↔
  Major a = Major b ∧ Minor a = Minor b ∧ Patch a = Patch b.
Proof.
  unfold Eq. rewrite !andb_true_iff, !Z.eqb_eq. tauto.
Qed.

Lemma Ge_irrefl (a : Version) : Ge a a = false.
Proof.
  destruct (Ge a a) eqn:H; [|done]. apply Ge_spec in H. lia.
Qed.

End Comparison.

(** C9. Comparison is a strict total order on the triple (major, minor,
    patch): with [a < b] read as [Ge b a], [a = b] as [Eq a b] and [a > b]
    as [Ge a b], exactly one of the three holds for any two versions, the
    variant playing no part, and the strict relation is transitive. *)
Theorem C9_compare_strict_total_order (a b c : Version) :
  ((Ge b a = true ∧ Eq a b = false ∧ Ge a b = false)
   ∨ (Ge b a = false ∧ Eq a b = true ∧ Ge a b = false)
   ∨ (Ge b a = false ∧ Eq a b = false ∧ Ge a b = true))
  ∧ (Ge a b = true → Ge b c = true → Ge a c = true)
  ∧ (∀ va vb : string,
       let a' := mkVersion (Major a) (Minor a) (Patch a) va in
       let b' := mkVersion (Major b) (Minor b) (Patch b) vb in
       Eq a' b' = Eq a b ∧ Ge a' b' = Ge a b).
Proof.
  split; [|split].
  - destruct (Ge b a) eqn:Hba, (Eq a b) eqn:Hab, (Ge a b) eqn:Hgt;
      try rewrite Ge_spec in *; try rewrite Eq_spec in *;
      repeat match goal with
             | H : Ge _ _ = true |- _ => apply Ge_spec in H
             | H : Eq _ _ = true |- _ => apply Eq_spec in H
             | H : Ge _ _ = false |- _ =>
                 apply not_true_iff_false in H; rewrite Ge_spec in H
             | H : Eq _ _ = false |- _ =>
                 apply not_true_iff_false in H; rewrite Eq_spec in H
             end;
      try (exfalso; lia); auto.
  - rewrite !Ge_spec. lia.
  - intros va vb. split; reflexivity.
Qed.

(** ** Build flags at the threshold *)

Section BuildFlags.
Variable pathJoin : string → string → string.

Lemma buildEnv_below (version : Version) (manateeSrc manateeLib : string) :
  Ge version v2_208 = false →
  buildEnv pathJoin version manateeSrc manateeLib
  = plainFlags manateeSrc manateeLib.
Proof.
  intros H. unfold buildEnv, subdirs, plainFlags. rewrite H. reflexivity.
Qed.

Lemma buildEnv_above (version : Version) (manateeSrc manateeLib : string) :
  Ge version v2_208 = true →
  buildEnv pathJoin version manateeSrc manateeLib
  = extendedFlags pathJoin manateeSrc manateeLib.
Proof.
  intros H. unfold buildEnv, subdirs, extendedFlags. rewrite H. reflexivity.
Qed.

Lemma append_length (a b : string) :
  String.length (a +:+ b) = (String.length a + String.length b)%nat.
Proof. induction a as [|c a IH]; simpl; [done|]. by rewrite IH. Qed.


End BuildFlags.

(** ** Export and the environment of started commands *)

Section ExportFacts.

Lemma foldl_append_map {A B} (f : A → B) (xs : list A) (init : list B) :
  foldl (λ ans x, ans ++ [f x]) init xs = init ++ map f xs.
Proof.
  revert init. induction xs as [|x xs IH]; intros init; simpl.
  - by rewrite app_nil_r.
  - rewrite IH. by rewrite <- app_assoc.
Qed.

Lemma Export_eq (ev : EnvironmentVars) (order : list (string * string)) :
  Export ev order = replicate (size ev) EmptyString ++ map assignment order.
Proof. unfold Export. apply (foldl_append_map assignment). Qed.

Lemma visits_length (ev : EnvironmentVars) (order : list (string * string)) :
  visits ev order → length order = size ev.
Proof.
  intros H. rewrite (Permutation_length H). apply length_map_to_list.
Qed.

Lemma visits_entries (ev : EnvironmentVars) (order : list (string * string)) :
  visits ev order → ∀ k v, (k, v) ∈ order ↔ ev !! k = Some v.
Proof.
  intros H k v. rewrite H. apply elem_of_map_to_list.
Qed.

Lemma RunCommand_with_env (c : Cmd) (dir : string) (env : EnvironmentVars)
    (order : list (string * string)) (last : RunCommandOption) :
  (last = WithPrintIfErr ∨ last = WithPrintStdout) →
  Env (cmd (RunCommand_configured c [WithDir dir; WithEnv env order; last]))
  = Some (Export env order).
Proof. intros [-> | ->]; reflexivity. Qed.

End ExportFacts.

(** ** UpdateBy *)

Section UpdateByFacts.

Lemma UpdateBy_writes (order : list (string * string)) :
  ∀ (h : store) (l : loc) (base : EnvironmentVars),
    h !! l = Some base →
    UpdateBy h (mapAt l) order = Returns (<[l := writeAll base order]> h).
Proof.
  unfold UpdateBy, writeAll.
  induction order as [|[k v] order IH]; intros h l base Hl; simpl.
  - by rewrite insert_id.
  - rewrite Hl. simpl.
    rewrite (IH (<[l := <[k := v]> base]> h) l (<[k := v]> base)).
    + by rewrite insert_insert_eq.
    + apply lookup_insert_eq.
Qed.

Lemma writeAll_union (order : list (string * string)) :
  ∀ base : EnvironmentVars,
    NoDup order.*1 →
    writeAll base order = list_to_map order ∪ base.
Proof.
  unfold writeAll.
  induction order as [|[k v] order IH]; intros base Hnd; simpl.
  - by rewrite (left_id_L ∅ (∪)).
  - apply NoDup_cons in Hnd as [Hk Hnd].
    rewrite IH by done.
    rewrite <- insert_union_l.
    symmetry. apply insert_union_r.
    by apply not_elem_of_list_to_map_1.
Qed.

Lemma writeAll_visits (base overlay : EnvironmentVars)
    (order : list (string * string)) :
  visits overlay order → writeAll base order = overlay ∪ base.
Proof.
  intros H.
  assert (Hnd : NoDup order.*1).
  { rewrite H. apply NoDup_fst_map_to_list. }
  rewrite writeAll_union by done.
  f_equal.
  rewrite (list_to_map_proper order (map_to_list overlay)) by done.
  apply list_to_map_to_list.
Qed.

End UpdateByFacts.

(** C3 (as the code has it). [UpdateBy] is an update in place of the table
    its receiver refers to: afterwards that table maps every key of the
    overlay to the overlay's value and every other key to the value the base
    had; every other table of the store is untouched, and the overlay reads
    as before, also when it is the receiver's own table. *)
Theorem C3_UpdateBy_updates_receiver_in_place
    (h : store) (l : loc) (base : EnvironmentVars) (other : mapValue)
    (order : list (string * string)) :
  h !! l = Some base →
  visits (contents h other) order →
  ∃ h' : store,
    UpdateBy h (mapAt l) order = Returns h'
    ∧ (∀ k, contents h' (mapAt l) !! k
            = match contents h other !! k with
              | Some v => Some v
              | None => base !! k
              end)
    ∧ (∀ l', l' ≠ l → h' !! l' = h !! l')
    ∧ contents h' other = contents h other.
Proof.
  intros Hl Hvisit.
  exists (<[l := contents h other ∪ base]> h).
  rewrite (UpdateBy_writes order h l base Hl).
  rewrite (writeAll_visits base (contents h other) order Hvisit).
  repeat apply conj.
  - done.
  - intros k. simpl. rewrite lookup_insert_eq. simpl.
    rewrite lookup_union.
    destruct (contents h other !! k), (base !! k); reflexivity.
  - intros l' Hne. by rewrite lookup_insert_ne.
  - destruct other as [|l']; simpl; [done|].
    destruct (decide (l' = l)) as [->|Hne].
    + rewrite lookup_insert_eq, Hl. simpl.
      by rewrite (idemp_L (∪)).
    + by rewrite lookup_insert_ne.
Qed.

(** The hypotheses of C3 hold of a store with two tables. *)
Lemma C3_UpdateBy_witness :
  let h : store :=
    <[1%positive := <["CC" := "gcc"]> ∅]>
      (<[2%positive := <["CC" := "clang"]> ∅]> ∅) in
  ∃ h' : store,
    UpdateBy h (mapAt 1) (map_to_list (contents h (mapAt 2))) = Returns h'
    ∧ (∀ k, contents h' (mapAt 1) !! k
            = match contents h (mapAt 2) !! k with
              | Some v => Some v
              | None => (<["CC" := "gcc"]> ∅ : EnvironmentVars) !! k
              end)
    ∧ (∀ l', l' ≠ 1%positive → h' !! l' = h !! l')
    ∧ contents h' (mapAt 2) = contents h (mapAt 2).
Proof.
  intros h.
  apply (C3_UpdateBy_updates_receiver_in_place h 1%positive
           (<["CC" := "gcc"]> ∅) (mapAt 2)).
  - reflexivity.
  - unfold visits. reflexivity.
Defined.

(** C3 as stated fails: the base table is written. A base holding
    [CC=gcc], updated by an overlay holding [CC=clang], holds [CC=clang]
    afterwards. *)
Lemma C3_base_is_mutated :
  let h : store :=
    <[1%positive := <["CC" := "gcc"]> ∅]>
      (<[2%positive := <["CC" := "clang"]> ∅]> ∅) in
  ¬ (∀ h' : store,
       UpdateBy h (mapAt 1) (map_to_list (contents h (mapAt 2))) = Returns h' →
       contents h' (mapAt 1) = contents h (mapAt 1)
       ∧ contents h' (mapAt 2) = contents h (mapAt 2)).
Proof.
  intros h Hpure.
  destruct (Hpure (<[1%positive := <["CC" := "clang"]> ∅]> h)) as [Hbase _].
  - reflexivity.
  - apply (f_equal (λ m : EnvironmentVars, m !! "CC")) in Hbase.
    vm_compute in Hbase. discriminate Hbase.
Qed.

(** ** Autodetection from the library binary *)

Section Autodetection.
Variable pathJoin : string → string → string.
Variable w : World.

Lemma afterPrefix_app (pre tail : string) :
  Regexp.afterPrefix pre (pre +:+ tail) = Some tail.
Proof.
  induction pre as [|c pre IH]; simpl; [done|].
  by rewrite Ascii.eqb_refl.
Qed.

(** When the pattern matches nowhere, every occurrence of [open-] in the
    text is followed by a space or by the end of the text. *)
Lemma FindStringSubmatch_nil (s : string) :
  Regexp.FindStringSubmatch s = [] →
  ∀ before tail, s = before +:+ "open-" +:+ tail →
                 Regexp.takeNonSpace tail = EmptyString.
Proof.
  induction s as [|c s IH]; intros Hnil before tail Heq.
  - destruct before; discriminate Heq.
  - destruct before as [|b before].
    + simpl in Heq. injection Heq as -> ->. simpl in Hnil.
      change (EmptyString +:+ tail) with tail in Hnil.
      destruct (Regexp.takeNonSpace tail); [done|discriminate Hnil].
    + injection Heq as -> ->.
      apply (IH) with (before := before); [|done].
      cbn [Regexp.FindStringSubmatch] in Hnil.
      destruct (Regexp.afterPrefix _ _) as [t|]; [|done].
      destruct (Regexp.takeNonSpace t); [done|discriminate Hnil].
Qed.

End Autodetection.

(** C4 (the code departs from the claim). With a library directory given
    and the binary present, a [strings] output in which the pattern matches
    nowhere makes [AutodetectManateeVersion] index the empty match slice: the
    call panics instead of returning an error. When the pattern does match,
    the result is that of parsing the matched text, parse error included. *)
Theorem C4_missing_marker_panics
    (pathJoin : string → string → string) (w : World)
    (specPath out : string) (knownVersions : list string) :
  specPath ≠ EmptyString →
  PathExists w (pathJoin specPath "libmanatee.so") = true →
  stringsOutput w (pathJoin specPath "libmanatee.so") = (out, None) →
  (Regexp.FindStringSubmatch out = [] →
   AutodetectManateeVersion pathJoin w specPath knownVersions
   = Panics "index out of range [1] with length 0")
  ∧ (∀ whole text, Regexp.FindStringSubmatch out = [whole; text] →
     AutodetectManateeVersion pathJoin w specPath knownVersions
     = Returns (ParseManateeVersion text)).
Proof.
  intros Hspec Hexists Hout.
  assert (Hlib : libPathOf pathJoin specPath = pathJoin specPath "libmanatee.so").
  { unfold libPathOf. destruct (String.eqb_spec specPath EmptyString); done. }
  unfold AutodetectManateeVersion. rewrite Hlib, Hexists, Hout.
  split.
  - intros ->. reflexivity.
  - intros whole text ->. reflexivity.
Qed.

(** The hypotheses of C4 hold of a binary without marker. *)
Lemma C4_missing_marker_witness :
  AutodetectManateeVersion joinClean worldWithoutMarker "/opt/build/lib"
    KnownVersions
  = Panics "index out of range [1] with length 0".
Proof.
  apply (C4_missing_marker_panics joinClean worldWithoutMarker "/opt/build/lib"
           "GCC: (GNU) 12.2.0 libmanatee.so.0 open- source" KnownVersions).
  - discriminate.
  - reflexivity.
  - reflexivity.
  - reflexivity.
Defined.

(** ** The scan of the versioned installs *)

Section OptScan.
Variable pathJoin : string → string → string.
Variable w : World.

Lemma scan_without_qualifying (knownVersions entries : list string)
    (found : list Version) :
  (∀ name, name ∈ entries → qualifies knownVersions name = false) →
  foldl (λ foundVersions name,
           match ParseManateeVersion name with
           | (v, None) =>
               if SliceContains knownVersions (Semver v)
               then foundVersions ++ [v]
               else foundVersions
           | (_, Some _) => foundVersions
           end)
        found entries = found.
Proof.
  revert found. induction entries as [|name entries IH]; intros found Hq.
  - reflexivity.
  - simpl.
    pose proof (Hq name ltac:(left)) as Hname.
    unfold qualifies in Hname.
    destruct (ParseManateeVersion name) as [v [e|]].
    + apply IH. intros n Hn. apply Hq. by right.
    + rewrite Hname. apply IH. intros n Hn. apply Hq. by right.
Qed.

Lemma findLatest_without_qualifying (knownVersions entries : list string) :
  ReadDir w "/opt/manatee" = (entries, None) →
  (∀ name, name ∈ entries → qualifies knownVersions name = false) →
  findLatestManateeInOpt w knownVersions = (zeroVersion, None).
Proof.
  intros Hdir Hq. unfold findLatestManateeInOpt. rewrite Hdir.
  by rewrite (scan_without_qualifying knownVersions entries []).
Qed.

Lemma main_detect_never_proceeds_with_zero (manateeLib : string) (v : Version) :
  main_detect pathJoin w manateeLib = Proceeds v → IsZero v = false.
Proof.
  unfold main_detect.
  destruct (AutodetectManateeVersion _ _ _ _) as [[d [e|]]|msg]; try done.
  destruct (IsZero d) eqn:Hz; [done|].
  by intros [= <-].
Qed.

End OptScan.

(** C5. When the library is not at the inspected path and the scan of
    [/opt/manatee] finds no qualifying entry, [findLatestManateeInOpt] hands
    back the zero version, and [main] turns that into a failed run: it
    prints that no suitable version was found and exits with status 1.
    Whatever the world, [main] goes on to the build only with a version
    that is not the zero sentinel. *)
Theorem C5_no_qualifying_entry_fails
    (pathJoin : string → string → string) (w : World)
    (manateeLib : string) (entries : list string) :
  PathExists w (libPathOf pathJoin manateeLib) = false →
  ReadDir w "/opt/manatee" = (entries, None) →
  (∀ name, name ∈ entries → qualifies KnownVersions name = false) →
  main_detect pathJoin w manateeLib
  = Exit 1 ("Autodetection has not found any suitable Manatee version. "
              +:+ "Please select one manually" +:+ nl) None
  ∧ (∀ w' lib' v, main_detect pathJoin w' lib' = Proceeds v → IsZero v = false).
Proof.
  intros Hlib Hdir Hq. split.
  - unfold main_detect, AutodetectManateeVersion. rewrite Hlib.
    by rewrite (findLatest_without_qualifying w KnownVersions entries).
  - intros w' lib' v. apply main_detect_never_proceeds_with_zero.
Qed.

(** The hypotheses of C5 hold of a scan that lists a version off the
    allow-list, a name that is no version and a stray file. *)
Lemma C5_no_qualifying_entry_witness :
  main_detect joinClean
    (worldWithOptEntries ["2.300.1"; "current"; "README.txt"]) EmptyString
  = Exit 1 ("Autodetection has not found any suitable Manatee version. "
              +:+ "Please select one manually" +:+ nl) None.
Proof.
  refine (proj1 (C5_no_qualifying_entry_fails joinClean
                   (worldWithOptEntries ["2.300.1"; "current"; "README.txt"])
                   EmptyString ["2.300.1"; "current"; "README.txt"] _ _ _)).
  - reflexivity.
  - reflexivity.
  - intros name Hin.
    repeat (apply elem_of_cons in Hin as [-> | Hin]); try reflexivity.
    by apply elem_of_nil in Hin.
Defined.

Example scan_picks_latest :
  main_detect joinClean
    (worldWithOptEntries ["2.167.8"; "2.223.6"; "2.214.1"; "9.9.9"]) EmptyString
  = Proceeds (mkVersion 2 223 6 EmptyString).
Proof. reflexivity. Qed.

(** ** Source acquisition *)

Section Acquisition.
Variable w : World.

Lemma downloadFile_result (url target : string) :
  (downloadFile w url target).1 = None ↔ downloadOk w url target = true.
Proof.
  unfold downloadFile, downloadOk, bind, perform, ret.
  destruct (osCreate w target) as [e|]; simpl; [done|].
  destruct (httpGet w url) as [e|code]; simpl; [done|].
  destruct (ioCopy w url) as [e|];
    destruct (Z.ltb_spec code 200), (Z.leb_spec 400 code),
             (Z.leb_spec 200 code), (Z.ltb_spec code 400);
    simpl; try lia; done.
Qed.

(** A download asks the network for its own URL, once, unless the target
    file cannot be created. *)
Lemma downloadFile_requests (url target : string) :
  requests (downloadFile w url target).2
  = match osCreate w target with
    | None => [url]
    | Some _ => []
    end.
Proof.
  unfold downloadFile, bind, perform, ret.
  destruct (osCreate w target) as [e|]; simpl; [done|].
  destruct (httpGet w url) as [e|code]; simpl; [done|].
  destruct (_ || _); done.
Qed.

Lemma downloadFile_extractions (url target : string) :
  extractions (downloadFile w url target).2 = [].
Proof.
  unfold downloadFile, bind, perform, ret.
  destruct (osCreate w target) as [e|]; simpl; [done|].
  destruct (httpGet w url) as [e|code]; simpl; [done|].
  destruct (_ || _); done.
Qed.

Lemma downloadOk_requests (url target : string) :
  downloadOk w url target = true →
  requests (downloadFile w url target).2 = [url].
Proof.
  intros Hok. rewrite downloadFile_requests.
  unfold downloadOk in Hok. destruct (osCreate w target); done.
Qed.

Lemma downloadOk_created (url target : string) :
  downloadOk w url target = true → osCreate w target = None.
Proof. unfold downloadOk. destruct (osCreate w target); done. Qed.

Lemma requests_app (t1 t2 : list event) :
  requests (t1 ++ t2) = requests t1 ++ requests t2.
Proof. apply omap_app. Qed.

Lemma unpackArchive_requests (path : string) :
  requests (unpackArchive w path).2 = [].
Proof.
  unfold unpackArchive, bind, perform, ret.
  destruct (tarRun w path); done.
Qed.

Lemma unpackArchive_result (path : string) :
  (unpackArchive w path).1
  = match tarRun w path with
    | Some err =>
        Some (ErrorfW ("failed to unpack file " +:+ path +:+ ": ") err
                      EmptyString)
    | None => None
    end.
Proof.
  unfold unpackArchive, bind, perform, ret.
  destruct (tarRun w path); done.
Qed.

End Acquisition.

Section MirrorFallback.
Variable w : World.
Variable ver : Version.

Lemma tryMirrors_cases (outFile : string) :
  tryMirrors w ver outFile
  = match (downloadFile w (mirror1 ver) outFile).1 with
    | None => (None, (downloadFile w (mirror1 ver) outFile).2)
    | Some _ =>
        match (downloadFile w (mirror2 ver) outFile).1 with
        | None =>
            (None,
             (downloadFile w (mirror1 ver) outFile).2
               ++ (downloadFile w (mirror2 ver) outFile).2)
        | Some _ =>
            ((downloadFile w (mirror3 ver) outFile).1,
             (downloadFile w (mirror1 ver) outFile).2
               ++ (downloadFile w (mirror2 ver) outFile).2
               ++ (downloadFile w (mirror3 ver) outFile).2)
        end
    end.
Proof.
  unfold tryMirrors, bind, ret.
  destruct (downloadFile w (mirror1 ver) outFile) as [[e1|] t1]; simpl.
  - destruct (downloadFile w (mirror2 ver) outFile) as [[e2|] t2]; simpl.
    + destruct (downloadFile w (mirror3 ver) outFile) as [r3 t3]; reflexivity.
    + by rewrite app_nil_r.
  - by rewrite app_nil_r.
Qed.

Lemma downloadManateeSrc_uncached :
  IsDir w (cacheDir ver) = (false, None) →
  PathExists w (cacheArchive ver) = false →
  ∃ banner,
    downloadManateeSrc w ver
    = match (tryMirrors w ver (cacheArchive ver)).1 with
      | Some err =>
          ((EmptyString, Some (errTpl err)),
           EvPrint banner :: (tryMirrors w ver (cacheArchive ver)).2)
      | None =>
          (match (unpackArchive w (cacheArchive ver)).1 with
           | Some err => (EmptyString, Some (errTpl err))
           | None => (cacheDir ver, None)
           end,
           EvPrint banner :: (tryMirrors w ver (cacheArchive ver)).2
             ++ (unpackArchive w (cacheArchive ver)).2)
      end.
Proof.
  intros Hdir Hfile. eexists.
  unfold downloadManateeSrc. rewrite Hdir, Hfile.
  unfold bind, perform, ret. simpl.
  destruct (tryMirrors w ver (cacheArchive ver)) as [[e|] t]; simpl.
  - by rewrite app_nil_r.
  - destruct (unpackArchive w (cacheArchive ver)) as [[e|] ut]; simpl;
      by rewrite ?app_nil_r.
Qed.

End MirrorFallback.

(** C6 (as the code has it). With neither the cache directory nor a cached
    archive in place, the three mirrors are asked in their fixed order and
    the first whose download succeeds is the last one asked; the archive is
    then unpacked. When every download fails nothing is unpacked and the
    error sends the operator to [--manatee-src]; the same error is returned
    when a download succeeded and the unpacking fails. *)
Theorem C6_first_working_mirror_is_used (w : World) (ver : Version) :
  IsDir w (cacheDir ver) = (false, None) →
  PathExists w (cacheArchive ver) = false →
  let ok1 := downloadOk w (mirror1 ver) (cacheArchive ver) in
  let ok2 := downloadOk w (mirror2 ver) (cacheArchive ver) in
  let ok3 := downloadOk w (mirror3 ver) (cacheArchive ver) in
  let result := (downloadManateeSrc w ver).1 in
  let trace := (downloadManateeSrc w ver).2 in
  (ok1 = true → requests trace = [mirror1 ver])
  ∧ (ok1 = false → ok2 = true →
     requests trace = [mirror1 ver; mirror2 ver])
  ∧ (ok1 = false → ok2 = false → ok3 = true →
     requests trace = [mirror1 ver; mirror2 ver; mirror3 ver])
  ∧ (ok1 = false → ok2 = false → ok3 = false →
     manualOverrideError result.2
     ∧ extractions trace = []
     ∧ (requests trace = []
        ∨ requests trace = [mirror1 ver; mirror2 ver; mirror3 ver]))
  ∧ (ok1 || ok2 || ok3 = true →
     extractions trace = [cacheArchive ver]
     ∧ result = match tarRun w (cacheArchive ver) with
                | None => (cacheDir ver, None)
                | Some err =>
                    (EmptyString,
                     Some (errTpl (ErrorfW ("failed to unpack file "
                                              +:+ cacheArchive ver +:+ ": ")
                                           err EmptyString)))
                end).
Proof.
  intros Hdir Hfile ok1 ok2 ok3 result trace.
  destruct (downloadManateeSrc_uncached w ver Hdir Hfile) as [banner Hsrc].
  pose proof (tryMirrors_cases w ver (cacheArchive ver)) as Htry.
  pose proof (downloadFile_result w (mirror1 ver) (cacheArchive ver)) as R1.
  pose proof (downloadFile_result w (mirror2 ver) (cacheArchive ver)) as R2.
  pose proof (downloadFile_result w (mirror3 ver) (cacheArchive ver)) as R3.
  pose proof (downloadFile_extractions w (mirror1 ver) (cacheArchive ver)) as X1.
  pose proof (downloadFile_extractions w (mirror2 ver) (cacheArchive ver)) as X2.
  pose proof (downloadFile_extractions w (mirror3 ver) (cacheArchive ver)) as X3.
  pose proof (downloadFile_requests w (mirror1 ver) (cacheArchive ver)) as Q1.
  pose proof (downloadFile_requests w (mirror2 ver) (cacheArchive ver)) as Q2.
  pose proof (downloadFile_requests w (mirror3 ver) (cacheArchive ver)) as Q3.
  pose proof (unpackArchive_requests w (cacheArchive ver)) as QU.
  pose proof (unpackArchive_result w (cacheArchive ver)) as RU.
  assert (XU : extractions (unpackArchive w (cacheArchive ver)).2
               = [cacheArchive ver]).
  { unfold unpackArchive, bind, perform, ret.
    destruct (tarRun w (cacheArchive ver)); reflexivity. }
  fold ok1 in R1. fold ok2 in R2. fold ok3 in R3.
  unfold result, trace. rewrite Hsrc, Htry. clear Hsrc Htry result trace.
  unfold extractions in *. unfold requests in *.
  destruct (downloadFile w (mirror1 ver) (cacheArchive ver)) as [r1 t1].
  destruct (downloadFile w (mirror2 ver) (cacheArchive ver)) as [r2 t2].
  destruct (downloadFile w (mirror3 ver) (cacheArchive ver)) as [r3 t3].
  destruct (unpackArchive w (cacheArchive ver)) as [ru tu].
  simpl in *.
  assert (C1 : ok1 = true → osCreate w (cacheArchive ver) = None)
    by apply downloadOk_created.
  assert (C2 : ok2 = true → osCreate w (cacheArchive ver) = None)
    by apply downloadOk_created.
  assert (C3 : ok3 = true → osCreate w (cacheArchive ver) = None)
    by apply downloadOk_created.
  destruct ok1 eqn:E1, ok2 eqn:E2, ok3 eqn:E3;
    destruct r1 as [e1|], r2 as [e2|], r3 as [e3|];
    try (destruct R1 as [R1a R1b];
         (by discriminate (R1b eq_refl)) || (by discriminate (R1a eq_refl)));
    try (destruct R2 as [R2a R2b];
         (by discriminate (R2b eq_refl)) || (by discriminate (R2a eq_refl)));
    try (destruct R3 as [R3a R3b];
         (by discriminate (R3b eq_refl)) || (by discriminate (R3a eq_refl)));
    simpl;
    rewrite ?omap_app, ?X1, ?X2, ?X3, ?XU, ?QU, ?Q1, ?Q2, ?Q3;
    try rewrite (C1 eq_refl); try rewrite (C2 eq_refl);
    try rewrite (C3 eq_refl);
    repeat apply conj; intros; try done;
    try (rewrite RU; destruct (tarRun w (cacheArchive ver)); done);
    try (split; [by eexists|]; split; [done|];
         destruct (osCreate w (cacheArchive ver)); auto).
Qed.

(** The hypotheses of C6 hold where only the third mirror answers: all
    three are asked, in order. *)
Lemma C6_first_working_mirror_witness :
  requests (downloadManateeSrc worldThirdMirrorOnly
              (mkVersion 2 214 1 EmptyString)).2
  = [mirror1 (mkVersion 2 214 1 EmptyString);
     mirror2 (mkVersion 2 214 1 EmptyString);
     mirror3 (mkVersion 2 214 1 EmptyString)].
Proof.
  pose proof (C6_first_working_mirror_is_used worldThirdMirrorOnly
                (mkVersion 2 214 1 EmptyString) eq_refl eq_refl) as H.
  cbv zeta in H.
  destruct H as (_ & _ & H & _).
  exact (H eq_refl eq_refl eq_refl).
Defined.

(** C6 as stated fails in its only-if half: the first mirror delivers the
    archive, the archive does not unpack, and the operator is sent to
    [--manatee-src] although no mirror failed. *)
Lemma C6_manual_override_error_without_mirror_failure :
  ¬ (manualOverrideError
       (downloadManateeSrc worldBrokenArchive
          (mkVersion 2 214 1 EmptyString)).1.2
     ↔ (downloadOk worldBrokenArchive
          (mirror1 (mkVersion 2 214 1 EmptyString))
          (cacheArchive (mkVersion 2 214 1 EmptyString)) = false
        ∧ downloadOk worldBrokenArchive
            (mirror2 (mkVersion 2 214 1 EmptyString))
            (cacheArchive (mkVersion 2 214 1 EmptyString)) = false
        ∧ downloadOk worldBrokenArchive
            (mirror3 (mkVersion 2 214 1 EmptyString))
            (cacheArchive (mkVersion 2 214 1 EmptyString)) = false)).
Proof.
  intros [Honly _].
  destruct Honly as [Hfirst _].
  - eexists. reflexivity.
  - discriminate Hfirst.
Qed.

Example broken_archive_is_removed :
  (downloadManateeSrc worldBrokenArchive (mkVersion 2 214 1 EmptyString)).2
  = [EvPrint (nl +:+ "Looking for manatee-open-2.214.1.tar.gz" +:+ nl);
     EvCreate "/tmp/manatee-open-2.214.1.tar.gz";
     EvHttpGet "https://corpora.fi.muni.cz/noske/src/manatee-open/manatee-open-2.214.1.tar.gz";
     EvCopy "https://corpora.fi.muni.cz/noske/src/manatee-open/manatee-open-2.214.1.tar.gz"
            "/tmp/manatee-open-2.214.1.tar.gz";
     EvTar "/tmp/manatee-open-2.214.1.tar.gz";
     EvRemove "/tmp/manatee-open-2.214.1.tar.gz";
     EvPrint ("removing archive /tmp/manatee-open-2.214.1.tar.gz due to an error"
                +:+ nl)].
Proof. reflexivity. Qed.

(** C7. When the cache directory of the version is there, [locate] returns
    its path and does nothing but print a note: no file is created, no
    mirror is asked, nothing is unpacked or removed. The world being left as
    it was, a second call answers the same. *)
Theorem C7_cached_directory_is_reused (w : World) (ver : Version) :
  IsDir w (cacheDir ver) = (true, None) →
  (downloadManateeSrc w ver).1 = (cacheDir ver, None)
  ∧ (downloadManateeSrc w ver).2
    = [EvPrint ("found existing manatee directory in " +:+ cacheDir ver
                  +:+ nl)]
  ∧ requests (downloadManateeSrc w ver).2 = []
  ∧ extractions (downloadManateeSrc w ver).2 = [].
Proof.
  intros Hdir. unfold downloadManateeSrc. rewrite Hdir.
  repeat apply conj; reflexivity.
Qed.

(** The hypothesis of C7 holds of a world with the cache in place. *)
Lemma C7_cached_directory_witness :
  (downloadManateeSrc worldWithCache (mkVersion 2 223 6 EmptyString)).1
  = ("/tmp/manatee-open-2.223.6", None).
Proof.
  exact (proj1 (C7_cached_directory_is_reused worldWithCache
                  (mkVersion 2 223 6 EmptyString) eq_refl)).
Defined.

(** ** Parsing *)

Section AtoiFacts.

Lemma isDigit_digitOf (c : ascii) :
  isDigit c = true →
  Strconv.digitOf c = Some (Z.of_N (N_of_ascii c) - 48).
Proof. unfold isDigit, Strconv.digitOf. by intros ->. Qed.

Lemma digitOf_isDigit (c : ascii) :
  isDigit c = false → Strconv.digitOf c = None.
Proof. unfold isDigit, Strconv.digitOf. by intros ->. Qed.

Lemma digitsValue_allDigits (s : string) :
  ∀ acc, allDigits s = true →
         Strconv.digitsValue s acc = Some (decimalValueFrom acc s).
Proof.
  induction s as [|c s IH]; intros acc Hd; simpl in *; [done|].
  apply andb_true_iff in Hd as [Hc Hs].
  rewrite (isDigit_digitOf c Hc). by apply IH.
Qed.

Lemma digitsValue_not_allDigits (s : string) :
  ∀ acc, allDigits s = false → Strconv.digitsValue s acc = None.
Proof.
  induction s as [|c s IH]; intros acc Hd; simpl in *; [done|].
  destruct (isDigit c) eqn:Hc; simpl in Hd.
  - rewrite (isDigit_digitOf c Hc). by apply IH.
  - by rewrite (digitOf_isDigit c Hc).
Qed.

Lemma isDigit_not_sign (c : ascii) :
  isDigit c = true →
  Ascii.eqb c "-"%char = false ∧ Ascii.eqb c "+"%char = false
  ∧ Ascii.eqb c "."%char = false.
Proof.
  intros Hd.
  repeat split; apply Ascii.eqb_neq; intros ->; discriminate Hd.
Qed.

Lemma decimalValueFrom_nonneg (s : string) :
  ∀ acc, 0 ≤ acc → allDigits s = true → 0 ≤ decimalValueFrom acc s.
Proof.
  induction s as [|c s IH]; intros acc Hacc Hd; simpl in *; [done|].
  apply andb_true_iff in Hd as [Hc Hs].
  apply IH; [|done].
  unfold isDigit in Hc. lia.
Qed.

(** [Atoi] on an unsigned numeral within range. *)
Lemma Atoi_numeric (s : string) :
  numeric s = true →
  decimalValue s ≤ Strconv.maxInt →
  Strconv.Atoi s = (decimalValue s, None).
Proof.
  unfold numeric. intros Hn Hr.
  apply andb_true_iff in Hn as [Hne Hd].
  destruct s as [|c rest]; [done|].
  unfold Strconv.Atoi.
  assert (Hc : isDigit c = true) by (simpl in Hd; by destruct (isDigit c)).
  destruct (isDigit_not_sign c Hc) as (-> & -> & _). simpl orb. cbv iota.
  rewrite (digitsValue_allDigits (String c rest) 0 Hd).
  fold (decimalValue (String c rest)).
  destruct (Z.ltb_spec Strconv.maxInt (decimalValue (String c rest))); [lia|done].
Qed.

(** The digit loop followed by the range test, as both signs use it. *)
Lemma checked_value_ok (body : string) (bound clamp : Z) (f : Z → Z)
    (e1 e2 e3 : error) :
  (match body with
   | EmptyString => (0, Some e1)
   | String _ _ =>
       match Strconv.digitsValue body 0 with
       | Some un => if bound <? un then (clamp, Some e3) else (f un, None)
       | None => (0, Some e2)
       end
   end).2 = None
  ↔ numeric body && (decimalValue body <=? bound) = true.
Proof.
  unfold numeric.
  destruct body as [|c rest]; [simpl; split; discriminate|].
  assert (Hne : negb (String.eqb (String c rest) EmptyString) = true)
    by reflexivity.
  rewrite Hne, andb_true_l. clear Hne.
  destruct (allDigits (String c rest)) eqn:Hd.
  - rewrite (digitsValue_allDigits _ 0 Hd), andb_true_l.
    fold (decimalValue (String c rest)).
    destruct (Z.ltb_spec bound (decimalValue (String c rest))),
      (Z.leb_spec (decimalValue (String c rest)) bound);
      try lia; cbn [snd]; split; (done || discriminate).
  - rewrite (digitsValue_not_allDigits _ 0 Hd), andb_false_l.
    cbn [snd]; split; discriminate.
Qed.

(** [Atoi] returns no error exactly on the numerals of [int]. *)
Lemma Atoi_ok_iff (s : string) :
  (Strconv.Atoi s).2 = None ↔ intNumeral s = true.
Proof.
  destruct s as [|c rest]; [simpl; split; discriminate|].
  unfold Strconv.Atoi, intNumeral.
  destruct (Ascii.eqb c "-"%char) eqn:Hminus; simpl orb; cbv iota.
  - apply checked_value_ok.
  - destruct (Ascii.eqb c "+"%char) eqn:Hplus; cbv iota.
    + apply checked_value_ok.
    + apply (checked_value_ok (String c rest) Strconv.maxInt Strconv.maxInt
               (λ un, un) (NumError "Atoi" (String c rest) ErrSyntax)).
Qed.

End AtoiFacts.

Section StringFacts.

Lemma append_cons (x : ascii) (a b : string) :
  String x a +:+ b = String x (a +:+ b).
Proof. reflexivity. Qed.

Lemma append_nil (b : string) : EmptyString +:+ b = b.
Proof. reflexivity. Qed.

Lemma append_assoc (a b c : string) : (a +:+ b) +:+ c = a +:+ b +:+ c.
Proof.
  induction a as [|x a IH]; [done|].
  rewrite !append_cons. f_equal. exact IH.
Qed.

Lemma substring_whole (s : string) : String.substring 0 (String.length s) s = s.
Proof. induction s as [|c s IH]; simpl; [done|]. by rewrite IH. Qed.

Lemma substring_cut (s : string) :
  ∀ n, (n ≤ String.length s)%nat →
       s = String.substring 0 n s
             +:+ String.substring n (String.length s - n) s.
Proof.
  induction s as [|c s IH]; intros n Hn.
  - destruct n; [done|]. simpl in Hn. lia.
  - destruct n as [|n].
    + simpl. by rewrite substring_whole.
    + simpl in *. rewrite append_cons. f_equal. apply IH. lia.
Qed.

Lemma substring_app_l (a b : string) :
  String.substring 0 (String.length a) (a +:+ b) = a.
Proof.
  induction a as [|c a IH].
  - rewrite append_nil. by destruct b.
  - rewrite append_cons. simpl. by rewrite IH.
Qed.

Lemma substring_app_r (a b : string) :
  String.substring (String.length a) (String.length b) (a +:+ b) = b.
Proof.
  induction a as [|c a IH].
  - rewrite append_nil. apply substring_whole.
  - rewrite append_cons. simpl. exact IH.
Qed.

(** [HasSuffix] holds exactly of the strings that end with the suffix. *)
Lemma HasSuffix_true (s suffix : string) :
  HasSuffix s suffix = true → ∃ front, s = front +:+ suffix.
Proof.
  unfold HasSuffix. intros H.
  apply andb_true_iff in H as [Hlen Heq].
  apply Nat.leb_le in Hlen. apply String.eqb_eq in Heq.
  exists (String.substring 0 (String.length s - String.length suffix) s).
  pose proof (substring_cut s (String.length s - String.length suffix)
                ltac:(lia)) as Hcut.
  replace (String.length s - (String.length s - String.length suffix))%nat
    with (String.length suffix) in Hcut by lia.
  by rewrite Heq in Hcut.
Qed.

Lemma HasSuffix_app (front suffix : string) :
  HasSuffix (front +:+ suffix) suffix = true.
Proof.
  unfold HasSuffix. rewrite append_length.
  apply andb_true_iff. split; [apply Nat.leb_le; lia|].
  apply String.eqb_eq.
  replace (String.length front + String.length suffix - String.length suffix)%nat
    with (String.length front) by lia.
  apply substring_app_r.
Qed.

Lemma TrimSuffix_app (front suffix : string) :
  TrimSuffix (front +:+ suffix) suffix = front.
Proof.
  unfold TrimSuffix. rewrite HasSuffix_app, append_length.
  replace (String.length front + String.length suffix - String.length suffix)%nat
    with (String.length front) by lia.
  apply substring_app_l.
Qed.

Lemma TrimSuffix_no_suffix (s suffix : string) :
  HasSuffix s suffix = false → TrimSuffix s suffix = s.
Proof. unfold TrimSuffix. by intros ->. Qed.

Lemma digitsAndDots_app (a b : string) :
  digitsAndDots (a +:+ b) = digitsAndDots a && digitsAndDots b.
Proof.
  induction a as [|c a IH]; [done|].
  rewrite append_cons. simpl. rewrite IH. by rewrite andb_assoc.
Qed.

Lemma allDigits_digitsAndDots (s : string) :
  allDigits s = true → digitsAndDots s = true.
Proof.
  induction s as [|c s IH]; simpl; [done|].
  intros H. apply andb_true_iff in H as [-> Hs]. simpl. by apply IH.
Qed.

Lemma Join_digitsAndDots (comps : list string) :
  Forall (λ c, allDigits c = true) comps →
  digitsAndDots (Join comps ".") = true.
Proof.
  induction 1 as [|c comps Hc Hcomps IH]; [done|].
  destruct comps as [|c' comps'].
  - simpl. by apply allDigits_digitsAndDots.
  - change (Join (c :: c' :: comps') ".")
      with (c +:+ "." +:+ Join (c' :: comps') ".").
    rewrite !digitsAndDots_app, IH.
    rewrite (allDigits_digitsAndDots c Hc). reflexivity.
Qed.

Lemma digitsAndDots_no_cnc (s : string) :
  digitsAndDots s = true → HasSuffix s "-cnc" = false.
Proof.
  intros Hd. destruct (HasSuffix s "-cnc") eqn:Hs; [|done].
  apply HasSuffix_true in Hs as [front ->].
  rewrite digitsAndDots_app in Hd.
  apply andb_true_iff in Hd as [_ Hd]. discriminate Hd.
Qed.

Lemma Split_allDigits (c : string) :
  allDigits c = true → Split c "."%char = [c].
Proof.
  induction c as [|x c IH]; simpl; [done|].
  intros H. apply andb_true_iff in H as [Hx Hc].
  destruct (isDigit_not_sign x Hx) as (_ & _ & ->).
  by rewrite (IH Hc).
Qed.

Lemma Split_allDigits_app (c rest : string) :
  allDigits c = true →
  Split (c +:+ "." +:+ rest) "."%char = c :: Split rest "."%char.
Proof.
  induction c as [|x c IH]; [done|].
  rewrite append_cons. simpl.
  intros H. apply andb_true_iff in H as [Hx Hc].
  destruct (isDigit_not_sign x Hx) as (_ & _ & ->).
  by rewrite (IH Hc).
Qed.

Lemma Split_Join (comps : list string) :
  comps ≠ [] →
  Forall (λ c, allDigits c = true) comps →
  Split (Join comps ".") "."%char = comps.
Proof.
  intros Hne Hall. induction Hall as [|c comps Hc Hcomps IH]; [done|].
  destruct comps as [|c' comps'].
  - simpl. by apply Split_allDigits.
  - change (Join (c :: c' :: comps') ".")
      with (c +:+ "." +:+ Join (c' :: comps') ".").
    rewrite (Split_allDigits_app c _ Hc).
    f_equal. by apply IH.
Qed.

Lemma components_Join (comps : list string) :
  comps ≠ [] →
  Forall (λ c, allDigits c = true) comps →
  components (Join comps ".") = comps.
Proof.
  intros Hne Hall. unfold components.
  rewrite TrimSuffix_no_suffix.
  - by apply Split_Join.
  - apply digitsAndDots_no_cnc. by apply Join_digitsAndDots.
Qed.

End StringFacts.

Section ParseFacts.

(** [ParseManateeVersion] in terms of the components of its input. *)
Lemma parse_two (s a b : string) (n1 n2 : Z) :
  components s = [a; b] →
  Strconv.Atoi a = (n1, None) →
  Strconv.Atoi b = (n2, None) →
  ParseManateeVersion s = (mkVersion n1 n2 0 EmptyString, None).
Proof.
  unfold components, ParseManateeVersion. intros -> Ha Hb.
  simpl. by rewrite Ha, Hb.
Qed.

Lemma parse_three (s a b c : string) (n1 n2 n3 : Z) :
  components s = [a; b; c] →
  Strconv.Atoi a = (n1, None) →
  Strconv.Atoi b = (n2, None) →
  Strconv.Atoi c = (n3, None) →
  ParseManateeVersion s = (mkVersion n1 n2 n3 EmptyString, None).
Proof.
  unfold components, ParseManateeVersion. intros -> Ha Hb Hc.
  simpl. by rewrite Ha, Hb, Hc.
Qed.

(** A component that [Atoi] rejects makes the parse fail. *)
Lemma parse_rejected_component (s c : string) :
  c ∈ components s →
  (Strconv.Atoi c).2 ≠ None →
  (ParseManateeVersion s).2 ≠ None.
Proof.
  unfold components, ParseManateeVersion. intros Hin Hrej.
  destruct (Split (TrimSuffix s "-cnc") ".") as [|a [|b [|c3 [|c4 rest]]]];
    try (simpl; discriminate).
  - simpl.
    destruct (Strconv.Atoi a) as [n1 [e1|]] eqn:Ha; [simpl; discriminate|].
    destruct (Strconv.Atoi b) as [n2 [e2|]] eqn:Hb; [simpl; discriminate|].
    exfalso.
    repeat (apply elem_of_cons in Hin as [-> | Hin]).
    + by rewrite Ha in Hrej.
    + by rewrite Hb in Hrej.
    + by apply elem_of_nil in Hin.
  - simpl.
    destruct (Strconv.Atoi a) as [n1 [e1|]] eqn:Ha; [simpl; discriminate|].
    destruct (Strconv.Atoi b) as [n2 [e2|]] eqn:Hb; [simpl; discriminate|].
    destruct (Strconv.Atoi c3) as [n3 [e3|]] eqn:Hc; [simpl; discriminate|].
    exfalso.
    repeat (apply elem_of_cons in Hin as [-> | Hin]).
    + by rewrite Ha in Hrej.
    + by rewrite Hb in Hrej.
    + by rewrite Hc in Hrej.
    + by apply elem_of_nil in Hin.
Qed.

End ParseFacts.

(** ** Printing a parsed number gives the numeral back *)

Section Numerals.

Lemma isDigit_cases (c : ascii) :
  isDigit c = true →
  c = "0"%char ∨ c = "1"%char ∨ c = "2"%char ∨ c = "3"%char ∨ c = "4"%char
  ∨ c = "5"%char ∨ c = "6"%char ∨ c = "7"%char ∨ c = "8"%char ∨ c = "9"%char.
Proof.
  destruct c as [[] [] [] [] [] [] [] []]; intros H;
    try discriminate H; auto 10.
Qed.

Lemma allDigits_uint (s : string) :
  allDigits s = true → ∃ d, s = NilEmpty.string_of_uint d.
Proof.
  induction s as [|c s IH]; intros H.
  - by exists Decimal.Nil.
  - simpl in H. apply andb_true_iff in H as [Hc Hs].
    destruct (IH Hs) as [d ->].
    destruct (isDigit_cases c Hc)
      as [->|[->|[->|[->|[->|[->|[->|[->|[->| ->]]]]]]]]].
    + by exists (Decimal.D0 d).
    + by exists (Decimal.D1 d).
    + by exists (Decimal.D2 d).
    + by exists (Decimal.D3 d).
    + by exists (Decimal.D4 d).
    + by exists (Decimal.D5 d).
    + by exists (Decimal.D6 d).
    + by exists (Decimal.D7 d).
    + by exists (Decimal.D8 d).
    + by exists (Decimal.D9 d).
Qed.

Lemma decimalValueFrom_of_uint_acc (d : Decimal.uint) :
  ∀ acc : positive,
    decimalValueFrom (Zpos acc) (NilEmpty.string_of_uint d)
    = Zpos (Pos.of_uint_acc d acc).
Proof.
  induction d; intros acc; simpl; [done|..];
    rewrite <- IHd; f_equal; lia.
Qed.

Lemma decimalValue_of_uint (d : Decimal.uint) :
  decimalValue (NilEmpty.string_of_uint d) = Z.of_N (Pos.of_uint d).
Proof.
  unfold decimalValue.
  induction d; simpl; [done|exact IHd|..];
    apply (decimalValueFrom_of_uint_acc d).
Qed.

Lemma Itoa_of_uint (d : Decimal.uint) :
  Decimal.unorm d = d →
  Itoa (Z.of_N (Pos.of_uint d)) = NilZero.string_of_uint d.
Proof.
  intros Hnorm. unfold Itoa.
  change (Z.of_N (Pos.of_uint d)) with (Z.of_int (Decimal.Pos d)).
  rewrite DecimalZ.to_of. simpl. by rewrite Hnorm.
Qed.

(** Printing the value of a numeral in normal form gives the numeral. *)
Lemma Itoa_decimalValue (s : string) :
  canonical s = true → Itoa (decimalValue s) = s.
Proof.
  unfold canonical, numeric. intros H.
  apply andb_true_iff in H as [H Hlead].
  apply andb_true_iff in H as [Hne Hd].
  destruct (allDigits_uint s Hd) as [d ->].
  rewrite decimalValue_of_uint.
  destruct d as [|d|d|d|d|d|d|d|d|d|d]; try discriminate Hne;
    try (rewrite Itoa_of_uint; reflexivity).
  (* a leading zero: the numeral is the digit zero *)
  simpl in Hlead. rewrite orb_false_r in Hlead.
  apply String.eqb_eq in Hlead.
  destruct d; try discriminate Hlead. reflexivity.
Qed.

End Numerals.

(** C8 (as the code has it). For every input made of 2 or 3 components
    joined by dots, each a run of decimal digits whose value fits [int],
    the parse succeeds, its fields are the values of the components with
    patch 0 when there are two, and the canonical string is the three
    values in decimal joined by dots: the input itself, with [.0] added
    when there are two components, if the components have no leading
    zeros. A component that is not a numeral of [int] (optional sign,
    digits, value in range) makes the parse return an error. *)
Theorem C8_parse_then_canonical (comps : list string) :
  (length comps = 2 ∨ length comps = 3)%nat →
  Forall (λ c, numeric c = true ∧ decimalValue c ≤ Strconv.maxInt) comps →
  let input := Join comps "." in
  let major := decimalValue (nth 0 comps EmptyString) in
  let minor := decimalValue (nth 1 comps EmptyString) in
  let patch := if (length comps =? 3)%nat
               then decimalValue (nth 2 comps EmptyString) else 0 in
  ParseManateeVersion input = (mkVersion major minor patch EmptyString, None)
  ∧ Semver (ParseManateeVersion input).1
    = Itoa major +:+ "." +:+ Itoa minor +:+ "." +:+ Itoa patch
  ∧ (Forall (λ c, canonical c = true) comps →
     Semver (ParseManateeVersion input).1
     = if (length comps =? 3)%nat then input else input +:+ ".0")
  ∧ (∀ s c, c ∈ components s → intNumeral c = false →
            (ParseManateeVersion s).2 ≠ None).
Proof.
  intros Hlen Hall input major minor patch.
  assert (Hparse : ParseManateeVersion input
                   = (mkVersion major minor patch EmptyString, None)).
  { assert (Hdigits : Forall (λ c, allDigits c = true) comps).
    { eapply Forall_impl; [exact Hall|].
      intros c [Hn _]. unfold numeric in Hn.
      by apply andb_true_iff in Hn as [_ Hn]. }
    assert (Hcomps : components input = comps).
    { apply components_Join; [|done]. destruct comps; simpl in Hlen; [lia|done]. }
    destruct comps as [|a [|b [|c [|d rest]]]]; simpl in Hlen; try lia.
    - apply Forall_cons in Hall as [[Ha Ra] Hall].
      apply Forall_cons in Hall as [[Hb Rb] _].
      apply (parse_two input a b); [done|by apply Atoi_numeric..].
    - apply Forall_cons in Hall as [[Ha Ra] Hall].
      apply Forall_cons in Hall as [[Hb Rb] Hall].
      apply Forall_cons in Hall as [[Hc Rc] _].
      apply (parse_three input a b c); [done|by apply Atoi_numeric..]. }
  split; [exact Hparse|]. split; [|split].
  - rewrite Hparse. reflexivity.
  - intros Hcan. rewrite Hparse. unfold Semver. cbn [fst Major Minor Patch].
    unfold input, major, minor, patch.
    destruct comps as [|a [|b [|c [|d rest]]]]; simpl in Hlen; try lia.
    + apply Forall_cons in Hcan as [Ca Hcan].
      apply Forall_cons in Hcan as [Cb _].
      cbn [nth length Nat.eqb Join].
      rewrite (Itoa_decimalValue a Ca), (Itoa_decimalValue b Cb).
      by rewrite !append_assoc.
    + apply Forall_cons in Hcan as [Ca Hcan].
      apply Forall_cons in Hcan as [Cb Hcan].
      apply Forall_cons in Hcan as [Cc _].
      cbn [nth length Nat.eqb Join].
      by rewrite (Itoa_decimalValue a Ca), (Itoa_decimalValue b Cb),
                 (Itoa_decimalValue c Cc).
  - intros s c Hin Hnum. apply (parse_rejected_component s c Hin).
    rewrite Atoi_ok_iff. by rewrite Hnum.
Qed.

(** The hypotheses of C8 hold of a two-component input with leading
    zeros. *)
Lemma C8_parse_then_canonical_witness :
  ParseManateeVersion "02.0208" = (mkVersion 2 208 0 EmptyString, None)
  ∧ Semver (ParseManateeVersion "02.0208").1 = "2.208.0".
Proof.
  assert (Hall : Forall (λ c, numeric c = true ∧ decimalValue c ≤ Strconv.maxInt)
                        ["02"; "0208"]).
  { repeat constructor; vm_compute; discriminate. }
  pose proof (C8_parse_then_canonical ["02"; "0208"] (or_introl eq_refl) Hall)
    as H.
  cbv zeta in H. destruct H as (H1 & H2 & _).
  split; [exact H1 | exact H2].
Defined.

(** C8 as stated fails: both components are runs of decimal digits, and the
    parse returns a range error for the first. *)
Lemma C8_numeric_component_out_of_range :
  ¬ (Forall (λ c, numeric c = true) ["99999999999999999999"; "1"] →
     (ParseManateeVersion (Join ["99999999999999999999"; "1"] ".")).2 = None).
Proof.
  intros Hclaim.
  assert (H : Forall (λ c, numeric c = true) ["99999999999999999999"; "1"])
    by (repeat constructor).
  specialize (Hclaim H). vm_compute in Hclaim. discriminate Hclaim.
Qed.

Example parse_out_of_range :
  ParseManateeVersion "99999999999999999999.1"
  = (mkVersion Strconv.maxInt 0 0 EmptyString,
     Some (NumError "Atoi" "99999999999999999999" ErrRange)).
Proof. reflexivity. Qed.

Example parse_negative_component :
  ParseManateeVersion "1.-5" = (mkVersion 1 (-5) 0 EmptyString, None)
  ∧ Semver (mkVersion 1 (-5) 0 EmptyString) = "1.-5.0".
Proof. split; reflexivity. Qed.

(** ** The variant of a parsed version *)

Lemma parse_variant_empty (s : string) :
  Variant (ParseManateeVersion s).1 = EmptyString.
Proof.
  unfold ParseManateeVersion.
  destruct (_ || _); [reflexivity|].
  destruct (Strconv.Atoi _) as [n1 [e1|]]; [reflexivity|].
  destruct (Strconv.Atoi _) as [n2 [e2|]]; [reflexivity|].
  destruct (_ =? _)%nat; [|reflexivity].
  destruct (Strconv.Atoi _) as [n3 e3]. reflexivity.
Qed.

(** C10 (the code departs from the claim). The suffix is stripped before
    the split, but [ParseManateeVersion] never writes the [Variant] field:
    the parsed value of an input with the custom-build suffix has the empty
    variant and is the value the input without the suffix parses to, so the
    suffix cannot be recovered from it. *)
Theorem C10_variant_never_recorded (front : string) :
  components (front +:+ "-cnc") = Split front "."%char
  ∧ Variant (ParseManateeVersion (front +:+ "-cnc")).1 = EmptyString
  ∧ ParseManateeVersion "2.208-cnc" = (mkVersion 2 208 0 EmptyString, None)
  ∧ ParseManateeVersion "2.208-cnc" = ParseManateeVersion "2.208".
Proof.
  split; [|split; [|split]].
  - unfold components. by rewrite TrimSuffix_app.
  - apply parse_variant_empty.
  - reflexivity.
  - reflexivity.
Qed.

(** * Further properties of the code *)

(** ** Printing and parsing versions *)

Section ItoaFacts.

Lemma string_of_uint_nonnil (d : Decimal.uint) :
  d ≠ Decimal.Nil → NilZero.string_of_uint d = NilEmpty.string_of_uint d.
Proof. by destruct d. Qed.

Lemma allDigits_string_of_uint (d : Decimal.uint) :
  allDigits (NilEmpty.string_of_uint d) = true.
Proof. induction d; simpl; done. Qed.

Lemma string_of_uint_nonempty (d : Decimal.uint) :
  d ≠ Decimal.Nil → NilEmpty.string_of_uint d ≠ EmptyString.
Proof. by destruct d. Qed.

Lemma Itoa_pos (p : positive) :
  Itoa (Zpos p) = NilEmpty.string_of_uint (Pos.to_uint p).
Proof.
  unfold Itoa. simpl.
  apply string_of_uint_nonnil, DecimalPos.Unsigned.to_uint_nonnil.
Qed.

Lemma Itoa_neg (p : positive) :
  Itoa (Zneg p) = String "-" (NilEmpty.string_of_uint (Pos.to_uint p)).
Proof.
  unfold Itoa. simpl. f_equal.
  apply string_of_uint_nonnil, DecimalPos.Unsigned.to_uint_nonnil.
Qed.

Lemma decimalValue_to_uint (p : positive) :
  decimalValue (NilEmpty.string_of_uint (Pos.to_uint p)) = Zpos p.
Proof.
  rewrite decimalValue_of_uint.
  by rewrite DecimalPos.Unsigned.of_to.
Qed.

Lemma numeric_to_uint (p : positive) :
  numeric (NilEmpty.string_of_uint (Pos.to_uint p)) = true.
Proof.
  unfold numeric. rewrite allDigits_string_of_uint, andb_true_r.
  apply negb_true_iff, String.eqb_neq, string_of_uint_nonempty.
  apply DecimalPos.Unsigned.to_uint_nonnil.
Qed.

(** [Atoi] reads back what [%d] prints, for every [int]. *)
Lemma Atoi_Itoa (n : Z) : isInt n → Strconv.Atoi (Itoa n) = (n, None).
Proof.
  intros [Hlo Hhi]. destruct n as [|p|p].
  - reflexivity.
  - rewrite Itoa_pos. rewrite Atoi_numeric.
    + by rewrite decimalValue_to_uint.
    + apply numeric_to_uint.
    + by rewrite decimalValue_to_uint.
  - rewrite Itoa_neg. unfold Strconv.Atoi.
    change (Ascii.eqb "-" "-") with true. cbv iota. simpl orb. cbv iota.
    pose proof (numeric_to_uint p) as Hnum. unfold numeric in Hnum.
    apply andb_true_iff in Hnum as [Hne Hd].
    destruct (NilEmpty.string_of_uint (Pos.to_uint p)) as [|c rest] eqn:Hs;
      [done|].
    rewrite (digitsValue_allDigits _ 0 Hd).
    fold (decimalValue (String c rest)).
    rewrite <- Hs, decimalValue_to_uint.
    destruct (Z.ltb_spec (- Strconv.minInt) (Zpos p)); [lia|done].
Qed.

Lemma noDot_string_of_uint (d : Decimal.uint) :
  noDot (NilEmpty.string_of_uint d) = true.
Proof. induction d; simpl; done. Qed.

Lemma noDot_Itoa (n : Z) : noDot (Itoa n) = true.
Proof.
  destruct n as [|p|p]; [done|..].
  - rewrite Itoa_pos. apply noDot_string_of_uint.
  - rewrite Itoa_neg. simpl. apply noDot_string_of_uint.
Qed.

Lemma endsWithDigit_string_of_uint (d : Decimal.uint) :
  d ≠ Decimal.Nil → endsWithDigit (NilEmpty.string_of_uint d) = true.
Proof.
  induction d; intros Hne; [done|..]; simpl;
    (destruct d; [reflexivity|apply IHd; discriminate..]).
Qed.

Lemma endsWithDigit_Itoa (n : Z) : endsWithDigit (Itoa n) = true.
Proof.
  destruct n as [|p|p]; [done|..].
  - rewrite Itoa_pos. apply endsWithDigit_string_of_uint.
    apply DecimalPos.Unsigned.to_uint_nonnil.
  - rewrite Itoa_neg.
    pose proof (endsWithDigit_string_of_uint (Pos.to_uint p)
                  (DecimalPos.Unsigned.to_uint_nonnil p)) as H.
    simpl. destruct (NilEmpty.string_of_uint (Pos.to_uint p)); done.
Qed.

Lemma endsWithDigit_app (a b : string) :
  b ≠ EmptyString → endsWithDigit (a +:+ b) = endsWithDigit b.
Proof.
  intros Hb. induction a as [|c a IH]; [done|].
  rewrite append_cons. simpl.
  destruct (a +:+ b) eqn:Hab; [|exact IH].
  destruct a; [|discriminate Hab]. by rewrite append_nil in Hab.
Qed.

Lemma endsWithDigit_no_cnc (s : string) :
  endsWithDigit s = true → HasSuffix s "-cnc" = false.
Proof.
  intros Hd. destruct (HasSuffix s "-cnc") eqn:Hs; [|done].
  apply HasSuffix_true in Hs as [front ->].
  rewrite endsWithDigit_app in Hd; [discriminate Hd|discriminate].
Qed.

Lemma Split_noDot (c : string) :
  noDot c = true → Split c "."%char = [c].
Proof.
  induction c as [|x c IH]; simpl; [done|].
  intros H. apply andb_true_iff in H as [Hx Hc].
  apply negb_true_iff in Hx. rewrite Hx. by rewrite (IH Hc).
Qed.

Lemma Split_noDot_app (c rest : string) :
  noDot c = true →
  Split (c +:+ "." +:+ rest) "."%char = c :: Split rest "."%char.
Proof.
  induction c as [|x c IH]; [done|].
  rewrite append_cons. simpl.
  intros H. apply andb_true_iff in H as [Hx Hc].
  apply negb_true_iff in Hx. rewrite Hx. by rewrite (IH Hc).
Qed.

Lemma Split_Semver (v : Version) :
  Split (Semver v) "."%char
  = [Itoa (Major v); Itoa (Minor v); Itoa (Patch v)].
Proof.
  unfold Semver.
  rewrite (Split_noDot_app _ _ (noDot_Itoa (Major v))).
  rewrite (Split_noDot_app _ _ (noDot_Itoa (Minor v))).
  by rewrite (Split_noDot _ (noDot_Itoa (Patch v))).
Qed.

Lemma endsWithDigit_Semver (v : Version) : endsWithDigit (Semver v) = true.
Proof.
  unfold Semver.
  pose proof (endsWithDigit_Itoa (Patch v)) as Hd.
  assert (Hne : Itoa (Patch v) ≠ EmptyString).
  { intros H. by rewrite H in Hd. }
  rewrite (endsWithDigit_app (Itoa (Major v))) by discriminate.
  rewrite (endsWithDigit_app ".") by (destruct (Itoa (Minor v)); discriminate).
  rewrite (endsWithDigit_app (Itoa (Minor v))) by discriminate.
  by rewrite (endsWithDigit_app ".").
Qed.

Lemma components_Semver (v : Version) :
  components (Semver v) = [Itoa (Major v); Itoa (Minor v); Itoa (Patch v)].
Proof.
  unfold components. rewrite TrimSuffix_no_suffix.
  - apply Split_Semver.
  - apply endsWithDigit_no_cnc, endsWithDigit_Semver.
Qed.

Lemma parse_Semver (v : Version) :
  goVersion v → ParseManateeVersion (Semver v) = (plain v, None).
Proof.
  intros (HM & Hm & Hp).
  apply (parse_three (Semver v) _ _ _ _ _ _ (components_Semver v));
    by apply Atoi_Itoa.
Qed.

Lemma append_empty (x : string) : x +:+ EmptyString = x.
Proof. induction x as [|c x IH]; [done|]. rewrite append_cons. by f_equal. Qed.

Lemma parse_Semver_suffix (v : Version) (suffix : string) :
  goVersion v →
  suffix = EmptyString ∨ suffix = "-cnc" →
  ParseManateeVersion (Semver v +:+ suffix) = (plain v, None).
Proof.
  intros Hv [-> | ->].
  - rewrite append_empty. by apply parse_Semver.
  - destruct Hv as (HM & Hm & Hp).
    apply (parse_three _ (Itoa (Major v)) (Itoa (Minor v)) (Itoa (Patch v)));
      try by apply Atoi_Itoa.
    unfold components. rewrite TrimSuffix_app. apply Split_Semver.
Qed.

End ItoaFacts.

(** X1. Parsing the canonical string of a version gives the version back,
    less its variant: for every version whose fields are [int]s, negative
    ones included, [ParseManateeVersion (Semver v)] succeeds with the same
    major, minor and patch, and so does the canonical string followed by
    the custom-build suffix. *)
Theorem X1_parse_of_canonical_string (v : Version) :
  goVersion v →
  ParseManateeVersion (Semver v) = (plain v, None)
  ∧ ParseManateeVersion (Semver v +:+ "-cnc") = (plain v, None).
Proof.
  intros Hv. split; [by apply parse_Semver|].
  destruct Hv as (HM & Hm & Hp).
  apply (parse_three _ (Itoa (Major v)) (Itoa (Minor v)) (Itoa (Patch v)));
    try by apply Atoi_Itoa.
  unfold components. rewrite TrimSuffix_app. apply Split_Semver.
Qed.

Lemma X1_parse_of_canonical_string_witness :
  ParseManateeVersion (Semver (mkVersion 2 (-14) 0 "cnc"))
  = (mkVersion 2 (-14) 0 EmptyString, None).
Proof.
  refine (proj1 (X1_parse_of_canonical_string (mkVersion 2 (-14) 0 "cnc") _)).
  repeat split; vm_compute; discriminate.
Defined.

(** ** The allow-list *)

Section AllowList.

Lemma Itoa_of_digits (n : Z) (s : string) :
  Itoa n = s → allDigits s = true → n = decimalValue s.
Proof.
  intros <- Hd. destruct n as [|p|p].
  - reflexivity.
  - rewrite Itoa_pos. by rewrite decimalValue_to_uint.
  - rewrite Itoa_neg in Hd. discriminate Hd.
Qed.

Lemma Semver_three (v : Version) (a b c : string) :
  Semver v = a +:+ "." +:+ b +:+ "." +:+ c →
  noDot a = true → noDot b = true → noDot c = true →
  allDigits a = true → allDigits b = true → allDigits c = true →
  triple v = (decimalValue a, decimalValue b, decimalValue c).
Proof.
  intros Heq Na Nb Nc Da Db Dc.
  apply (f_equal (λ s, Split s "."%char)) in Heq.
  rewrite Split_Semver in Heq.
  rewrite (Split_noDot_app a _ Na), (Split_noDot_app b _ Nb),
          (Split_noDot c Nc) in Heq.
  injection Heq as HM Hm Hp. unfold triple.
  by rewrite (Itoa_of_digits _ _ HM Da), (Itoa_of_digits _ _ Hm Db),
             (Itoa_of_digits _ _ Hp Dc).
Qed.

(** No canonical string has two components. *)
Lemma Semver_not_two (v : Version) (a b : string) :
  noDot a = true → noDot b = true → Semver v ≠ a +:+ "." +:+ b.
Proof.
  intros Na Nb Heq.
  apply (f_equal (λ s, Split s "."%char)) in Heq.
  rewrite Split_Semver in Heq.
  rewrite (Split_noDot_app a _ Na), (Split_noDot b Nb) in Heq.
  discriminate Heq.
Qed.

Lemma admitted_triple (v : Version) :
  SliceContains KnownVersions (Semver v) = true →
  triple v ∈ admittedTriples.
Proof.
  unfold SliceContains, KnownVersions, admittedTriples. simpl existsb.
  rewrite !orb_true_iff, !String.eqb_eq.
  intros [H|[H|[H|[H|[H|[H|H]]]]]]; [| |exfalso| | | |done].
  - rewrite (Semver_three v "2" "167" "8" H) by done. set_solver.
  - rewrite (Semver_three v "2" "167" "10" H) by done. set_solver.
  - by apply (Semver_not_two v "2" "208").
  - rewrite (Semver_three v "2" "214" "1" H) by done. set_solver.
  - rewrite (Semver_three v "2" "223" "6" H) by done. set_solver.
  - rewrite (Semver_three v "2" "225" "8" H) by done. set_solver.
Qed.

Lemma triple_admitted (v : Version) :
  triple v ∈ admittedTriples →
  SliceContains KnownVersions (Semver v) = true.
Proof.
  destruct v as [M m p vr]. unfold triple, admittedTriples. simpl.
  intros H.
  repeat (apply elem_of_cons in H as [[= -> -> ->] | H]); try reflexivity.
  by apply elem_of_nil in H.
Qed.

End AllowList.




(** X2. The allow-list test of [main] admits exactly the versions whose
    triple is one of 2.167.8, 2.167.10, 2.214.1, 2.223.6 and 2.225.8. The
    sixth entry of the list, [2.208], admits nothing: a canonical string
    always has three components, so no version, 2.208.0 included, is
    matched by it. *)
Theorem X2_allow_list_admits_five_triples (v : Version) :
  (SliceContains KnownVersions (Semver v) = true
   ↔ triple v ∈ admittedTriples)
  ∧ Semver v ≠ "2.208"
  ∧ (triple v = (2, 208, 0) →
     SliceContains KnownVersions (Semver v) = false).
Proof.
  split; [|split].
  - split; [apply admitted_triple | apply triple_admitted].
  - by apply (Semver_not_two v "2" "208").
  - intros Ht. apply not_true_iff_false. intros Hadm.
    apply admitted_triple in Hadm. rewrite Ht in Hadm.
    unfold admittedTriples in Hadm.
    repeat (apply elem_of_cons in Hadm as [Hadm | Hadm];
            [discriminate Hadm|]).
    by apply elem_of_nil in Hadm.
Qed.

(** X3. For every version the allow-list admits, the strict test
    [version.Ge(v2_208)] gives the answer of an at-or-above test: it fails
    exactly when the version is below the threshold, and the derived flags
    are the plain set below 2.208.0 and the extended set above it. *)
Theorem X3_strict_gate_on_admitted_versions
    (pathJoin : string → string → string) (v : Version)
    (manateeSrc manateeLib : string) :
  SliceContains KnownVersions (Semver v) = true →
  Ge v v2_208 = negb (Ge v2_208 v)
  ∧ buildEnv pathJoin v manateeSrc manateeLib
    = if Ge v2_208 v then plainFlags manateeSrc manateeLib
      else extendedFlags pathJoin manateeSrc manateeLib.
Proof.
  intros Hadm. apply admitted_triple in Hadm.
  destruct v as [M m p vr]. unfold triple, admittedTriples in Hadm.
  simpl in Hadm.
  repeat (apply elem_of_cons in Hadm as [[= -> -> ->] | Hadm]);
    try (by apply elem_of_nil in Hadm);
    (split; [reflexivity|]);
    first [ by rewrite buildEnv_below | by rewrite buildEnv_above ].
Qed.

Lemma X3_strict_gate_witness :
  Ge (mkVersion 2 214 1 EmptyString) v2_208
  = negb (Ge v2_208 (mkVersion 2 214 1 EmptyString)).
Proof.
  exact (proj1 (X3_strict_gate_on_admitted_versions joinClean
                  (mkVersion 2 214 1 EmptyString) "/tmp/src" "/usr/lib"
                  eq_refl)).
Defined.

(** X4. The display form of a parsed version never carries a variant:
    whatever the input, custom-build suffix or not, [String()] of the parse
    result is [manatee-open-] followed by the canonical string. For a
    version built with a variant, the text of the variant is not printed
    either: a lone dash stands in its place. *)
Theorem X4_display_form_has_no_variant (input : string) (v : Version) :
  Version_String (ParseManateeVersion input).1
  = "manatee-open-" +:+ Semver (ParseManateeVersion input).1
  ∧ (Variant v ≠ EmptyString →
     Version_String v = "manatee-open-" +:+ Semver v +:+ "-").
Proof.
  split.
  - unfold Version_String. rewrite parse_variant_empty.
    unfold Semver. simpl.
    assert (H : ∀ x : string, x +:+ EmptyString = x).
    { induction x as [|c x IH]; [done|]. rewrite append_cons. by f_equal. }
    by rewrite H.
  - intros Hv. unfold Version_String, Semver.
    destruct (String.eqb_spec (Variant v) EmptyString); [done|].
    simpl. by rewrite !append_assoc.
Qed.

(** ** The latest version under [/opt/manatee] *)

Section LatestInOpt.

Lemma notAbove_trans (a b c : Version) :
  notAbove a b → notAbove b c → notAbove a c.
Proof.
  unfold notAbove. rewrite <- !not_true_iff_false, !Ge_spec. lia.
Qed.

Lemma Ge_notAbove (a b : Version) : Ge a b = true → notAbove b a.
Proof.
  unfold notAbove. rewrite <- not_true_iff_false, !Ge_spec. lia.
Qed.

Lemma insertStable_perm (x : Version) (l : list Version) :
  insertStable (λ vi vj, Ge vj vi) x l ≡ₚ x :: l.
Proof.
  induction l as [|y l IH]; simpl; [done|].
  destruct (Ge x y); [|done].
  rewrite IH. apply Permutation_swap.
Qed.

Lemma SliceStable_perm (l : list Version) :
  SliceStable (λ vi vj, Ge vj vi) l ≡ₚ l.
Proof.
  induction l as [|x l IH]; simpl; [done|].
  unfold SliceStable in *. simpl.
  rewrite insertStable_perm. by rewrite IH.
Qed.

Lemma insertStable_sorted (x : Version) (l : list Version) :
  StronglySorted notAbove l →
  StronglySorted notAbove (insertStable (λ vi vj, Ge vj vi) x l).
Proof.
  induction 1 as [|y l Hsorted IH Hy]; simpl.
  - repeat constructor.
  - destruct (Ge x y) eqn:Hxy.
    + constructor; [exact IH|].
      rewrite insertStable_perm. constructor; [|exact Hy].
      by apply Ge_notAbove.
    + constructor; [by constructor|].
      constructor; [exact Hxy|].
      eapply Forall_impl; [exact Hy|].
      intros z Hz. by apply (notAbove_trans x y z).
Qed.

Lemma SliceStable_sorted (l : list Version) :
  StronglySorted notAbove (SliceStable (λ vi vj, Ge vj vi) l).
Proof.
  induction l as [|x l IH]; [constructor|].
  by apply insertStable_sorted.
Qed.

Lemma last_elem (l : list Version) (d : Version) :
  l ≠ [] → List.last l d ∈ l.
Proof.
  intros Hne.
  destruct (exists_last Hne) as [front [lst ->]].
  rewrite last_last. set_solver.
Qed.

Lemma sorted_last_on_top (l : list Version) (d : Version) :
  StronglySorted notAbove l →
  ∀ v, v ∈ l → notAbove v (List.last l d).
Proof.
  induction 1 as [|y l Hsorted IH Hy]; intros v Hv.
  - by apply elem_of_nil in Hv.
  - destruct l as [|z l].
    + apply list_elem_of_singleton in Hv as ->. apply Ge_irrefl.
    + change (List.last (y :: z :: l) d) with (List.last (z :: l) d).
      apply elem_of_cons in Hv as [-> | Hv]; [|by apply IH].
      rewrite Forall_forall in Hy. apply Hy.
      by apply last_elem.
Qed.

Lemma foundVersionsOf_acc (knownVersions entries : list string)
    (acc : list Version) :
  foldl (λ foundVersions name,
           match ParseManateeVersion name with
           | (v, None) =>
               if SliceContains knownVersions (Semver v)
               then foundVersions ++ [v]
               else foundVersions
           | (_, Some _) => foundVersions
           end)
        acc entries
  = acc ++ foundVersionsOf knownVersions entries.
Proof.
  unfold foundVersionsOf.
  revert acc. induction entries as [|name entries IH]; intros acc; simpl.
  - by rewrite app_nil_r.
  - rewrite IH. rewrite (IH (match ParseManateeVersion name with
                              | (v, None) => _ | (_, Some _) => _ end)).
    destruct (ParseManateeVersion name) as [v [e|]]; [done|].
    destruct (SliceContains knownVersions (Semver v)); [|done].
    by rewrite app_assoc.
Qed.

(** The collected versions are the parse results of the qualifying
    names. *)
Lemma foundVersionsOf_elem (knownVersions entries : list string)
    (v : Version) :
  v ∈ foundVersionsOf knownVersions entries
  ↔ ∃ name, name ∈ entries ∧ qualifies knownVersions name = true
            ∧ (ParseManateeVersion name).1 = v.
Proof.
  induction entries as [|name entries IH].
  - split; [intros H; by apply elem_of_nil in H|].
    intros (n & Hn & _). by apply elem_of_nil in Hn.
  - unfold foundVersionsOf. simpl. rewrite foundVersionsOf_acc.
    unfold qualifies in *.
    rewrite elem_of_app, IH. split.
    + intros [Hhead | (n & Hn & Hq & Hp)].
      * exists name. split; [by left|].
        destruct (ParseManateeVersion name) as [v' [e|]];
          [by apply elem_of_nil in Hhead|].
        destruct (SliceContains knownVersions (Semver v')) eqn:Hc;
          [|by apply elem_of_nil in Hhead].
        by apply list_elem_of_singleton in Hhead as ->.
      * exists n. split; [by right|done].
    + intros (n & Hn & Hq & Hp).
      apply elem_of_cons in Hn as [-> | Hn].
      * left. destruct (ParseManateeVersion name) as [v' [e|]]; [done|].
        simpl in Hp. subst v'. rewrite Hq. by apply list_elem_of_singleton.
      * right. by exists n.
Qed.

Lemma findLatest_unfold (w : World) (knownVersions entries : list string) :
  ReadDir w "/opt/manatee" = (entries, None) →
  foundVersionsOf knownVersions entries ≠ [] →
  findLatestManateeInOpt w knownVersions
  = (List.last (SliceStable (λ vi vj, Ge vj vi)
                  (foundVersionsOf knownVersions entries)) zeroVersion,
     None).
Proof.
  intros Hdir Hne. unfold findLatestManateeInOpt. rewrite Hdir.
  fold (foundVersionsOf knownVersions entries).
  destruct (foundVersionsOf knownVersions entries); done.
Qed.

End LatestInOpt.

(** X5. When [/opt/manatee] can be listed and holds at least one
    qualifying entry, [findLatestManateeInOpt] returns, without error, the
    version of a qualifying entry that no qualifying entry is above: the
    latest installed version the allow-list knows. *)
Theorem X5_findLatest_returns_the_maximum
    (w : World) (knownVersions entries : list string) (name : string) :
  ReadDir w "/opt/manatee" = (entries, None) →
  name ∈ entries →
  qualifies knownVersions name = true →
  ∃ best,
    best ∈ entries
    ∧ qualifies knownVersions best = true
    ∧ findLatestManateeInOpt w knownVersions
      = ((ParseManateeVersion best).1, None)
    ∧ (∀ other, other ∈ entries → qualifies knownVersions other = true →
         Ge (ParseManateeVersion other).1 (ParseManateeVersion best).1
         = false).
Proof.
  intros Hdir Hname Hq.
  assert (Hne : foundVersionsOf knownVersions entries ≠ []).
  { intros Hnil.
    assert (Hin : (ParseManateeVersion name).1
                  ∈ foundVersionsOf knownVersions entries)
      by (apply foundVersionsOf_elem; eauto).
    rewrite Hnil in Hin. by apply elem_of_nil in Hin. }
  rewrite (findLatest_unfold w knownVersions entries Hdir Hne).
  set (sorted := SliceStable (λ vi vj, Ge vj vi)
                   (foundVersionsOf knownVersions entries)).
  assert (Hsne : sorted ≠ []).
  { intros Hnil. apply Hne. apply Permutation_nil_r.
    rewrite <- Hnil. symmetry. apply SliceStable_perm. }
  pose proof (last_elem sorted zeroVersion Hsne) as Hlast.
  unfold sorted in Hlast at 2. rewrite SliceStable_perm in Hlast.
  apply foundVersionsOf_elem in Hlast as (best & Hbest & Hbq & Hbp).
  exists best. rewrite Hbp. repeat split; try done.
  intros other Hother Hoq.
  apply (sorted_last_on_top sorted zeroVersion (SliceStable_sorted _)).
  unfold sorted. rewrite SliceStable_perm.
  apply foundVersionsOf_elem. eauto.
Qed.

Lemma X5_findLatest_witness :
  ∃ best,
    best ∈ ["2.167.8"; "2.223.6-cnc"; "2.214.1"; "tmp"]
    ∧ qualifies KnownVersions best = true
    ∧ findLatestManateeInOpt
        (worldWithOptEntries ["2.167.8"; "2.223.6-cnc"; "2.214.1"; "tmp"])
        KnownVersions
      = ((ParseManateeVersion best).1, None)
    ∧ (∀ other, other ∈ ["2.167.8"; "2.223.6-cnc"; "2.214.1"; "tmp"] →
         qualifies KnownVersions other = true →
         Ge (ParseManateeVersion other).1 (ParseManateeVersion best).1
         = false).
Proof.
  apply (X5_findLatest_returns_the_maximum
           (worldWithOptEntries ["2.167.8"; "2.223.6-cnc"; "2.214.1"; "tmp"])
           KnownVersions _ "2.167.8").
  - reflexivity.
  - by left.
  - reflexivity.
Defined.

(** ** Reading the version marker of a library *)

Section Marker.

Lemma afterPrefix_length (pre s tail : string) :
  Regexp.afterPrefix pre s = Some tail →
  String.length s = (String.length pre + String.length tail)%nat.
Proof.
  revert s. induction pre as [|a pre IH]; intros s H; simpl in *.
  - by injection H as ->.
  - destruct s as [|b s]; [done|].
    destruct (Ascii.eqb a b); [|done].
    simpl. f_equal. by apply IH.
Qed.

Lemma afterPrefix_app_some (pre s tail more : string) :
  Regexp.afterPrefix pre s = Some tail →
  Regexp.afterPrefix pre (s +:+ more) = Some (tail +:+ more).
Proof.
  revert s. induction pre as [|a pre IH]; intros s H; simpl in *.
  - by injection H as ->.
  - destruct s as [|b s]; [done|]. rewrite append_cons.
    destruct (Ascii.eqb a b); [|done]. by apply IH.
Qed.

Lemma afterPrefix_app_none (pre s more : string) :
  Regexp.afterPrefix pre s = None →
  (String.length pre ≤ String.length s)%nat →
  Regexp.afterPrefix pre (s +:+ more) = None.
Proof.
  revert s. induction pre as [|a pre IH]; intros s H Hlen; simpl in *.
  - done.
  - destruct s as [|b s]; [simpl in Hlen; lia|]. rewrite append_cons.
    destruct (Ascii.eqb a b); [|done]. apply IH; [done|]. simpl in Hlen. lia.
Qed.

Lemma takeNonSpace_app_stop (t more : string) :
  Regexp.takeNonSpace t = EmptyString → t ≠ EmptyString →
  Regexp.takeNonSpace (t +:+ more) = EmptyString.
Proof.
  destruct t as [|c t]; [done|]. intros H _. rewrite append_cons.
  simpl in *. by destruct (Regexp.isSpace c).
Qed.

Lemma takeNonSpace_whole (text after : string) :
  noSpace text = true → endsMatch after = true →
  Regexp.takeNonSpace (text +:+ after) = text.
Proof.
  intros Hns Hend. induction text as [|c text IH].
  - rewrite append_nil. destruct after as [|a after]; [done|].
    simpl in *. by rewrite Hend.
  - rewrite append_cons. simpl in *.
    apply andb_true_iff in Hns as [Hc Hns].
    apply negb_true_iff in Hc. rewrite Hc. f_equal. by apply IH.
Qed.

(** A marker that no earlier marker hides is the one found. *)
Lemma FindStringSubmatch_marker (before rest : string) :
  Regexp.FindStringSubmatch (before +:+ "open-") = [] →
  Regexp.takeNonSpace rest ≠ EmptyString →
  Regexp.FindStringSubmatch (before +:+ "open-" +:+ rest)
  = ["open-" +:+ Regexp.takeNonSpace rest; Regexp.takeNonSpace rest].
Proof.
  intros Hnone Hgroup. induction before as [|c before IH].
  - rewrite append_nil.
    change ("open-" +:+ rest)
      with (String "o" (String "p" (String "e" (String "n"
              (String "-" rest))))).
    cbn [Regexp.FindStringSubmatch].
    change (Regexp.afterPrefix "open-"
              (String "o" (String "p" (String "e" (String "n"
                 (String "-" rest))))))
      with (Some rest).
    cbv iota. by destruct (Regexp.takeNonSpace rest).
  - rewrite append_cons in *.
    cbn [Regexp.FindStringSubmatch] in *.
    rewrite <- (append_assoc before "open-" rest).
    rewrite <- (append_cons c (before +:+ "open-") rest).
    destruct (Regexp.afterPrefix "open-" (String c (before +:+ "open-")))
      as [tail|] eqn:Hpre.
    + pose proof (afterPrefix_length _ _ _ Hpre) as Hlen.
      rewrite (afterPrefix_app_some _ _ _ rest Hpre).
      destruct (Regexp.takeNonSpace tail) eqn:Htake; [|discriminate Hnone].
      rewrite takeNonSpace_app_stop; [|done|].
      * rewrite append_assoc. by apply IH.
      * intros ->. simpl in Hlen. rewrite append_length in Hlen.
        simpl in Hlen. lia.
    + rewrite afterPrefix_app_none; [|done|].
      * rewrite append_assoc. by apply IH.
      * simpl. rewrite append_length. simpl. lia.
Qed.

Lemma noSpace_string_of_uint (d : Decimal.uint) :
  noSpace (NilEmpty.string_of_uint d) = true.
Proof. induction d; simpl; done. Qed.

Lemma noSpace_Itoa (n : Z) : noSpace (Itoa n) = true.
Proof.
  destruct n as [|p|p]; [done|..].
  - rewrite Itoa_pos. apply noSpace_string_of_uint.
  - rewrite Itoa_neg. simpl. apply noSpace_string_of_uint.
Qed.

Lemma noSpace_app (a b : string) :
  noSpace (a +:+ b) = noSpace a && noSpace b.
Proof.
  induction a as [|c a IH]; [done|].
  rewrite append_cons. simpl. rewrite IH. by rewrite andb_assoc.
Qed.

Lemma noSpace_Semver (v : Version) : noSpace (Semver v) = true.
Proof.
  unfold Semver. rewrite !noSpace_app, !noSpace_Itoa. reflexivity.
Qed.

End Marker.

(** X6. When the library is there and the first version marker in the
    output of [strings] is [open-] followed by the canonical string of a
    version, with or without the custom-build suffix, and then white space or
    the end of the output, [AutodetectManateeVersion] returns that version
    without error. *)
Theorem X6_autodetect_reads_the_marker
    (pathJoin : string → string → string) (w : World)
    (specPath before suffix after : string) (knownVersions : list string)
    (v : Version) :
  PathExists w (libPathOf pathJoin specPath) = true →
  stringsOutput w (libPathOf pathJoin specPath)
  = (before +:+ "open-" +:+ (Semver v +:+ suffix) +:+ after, None) →
  Regexp.FindStringSubmatch (before +:+ "open-") = [] →
  suffix = EmptyString ∨ suffix = "-cnc" →
  endsMatch after = true →
  goVersion v →
  AutodetectManateeVersion pathJoin w specPath knownVersions
  = Returns (plain v, None).
Proof.
  intros Hexists Hout Hfirst Hsuffix Hafter Hv.
  assert (Hns : noSpace (Semver v +:+ suffix) = true).
  { rewrite noSpace_app, noSpace_Semver. by destruct Hsuffix as [-> | ->]. }
  assert (Htake : Regexp.takeNonSpace ((Semver v +:+ suffix) +:+ after)
                  = Semver v +:+ suffix)
    by (by apply takeNonSpace_whole).
  assert (Hne : Semver v +:+ suffix ≠ EmptyString).
  { unfold Semver. pose proof (endsWithDigit_Itoa (Major v)) as Hd.
    destruct (Itoa (Major v)); [discriminate Hd|discriminate]. }
  unfold AutodetectManateeVersion. rewrite Hexists, Hout. cbv zeta.
  rewrite FindStringSubmatch_marker; [|done|by rewrite Htake].
  rewrite Htake. cbn [lookup list_lookup].
  f_equal. by apply parse_Semver_suffix.
Qed.

Lemma X6_autodetect_witness :
  AutodetectManateeVersion joinClean
    (mkWorld (λ _, true) (IsDir bareWorld) (ReadDir bareWorld)
       (λ _, ("GLIBC_2.34 manatee-open-2.223.6-cnc finlib", None))
       (osCreate bareWorld) (httpGet bareWorld) (ioCopy bareWorld)
       (tarRun bareWorld))
    "/opt/build/lib" KnownVersions
  = Returns (mkVersion 2 223 6 EmptyString, None).
Proof.
  apply (X6_autodetect_reads_the_marker joinClean _ "/opt/build/lib"
           "GLIBC_2.34 manatee-" "-cnc" " finlib" KnownVersions
           (mkVersion 2 223 6 EmptyString)).
  - reflexivity.
  - reflexivity.
  - reflexivity.
  - by right.
  - reflexivity.
  - repeat split; vm_compute; discriminate.
Defined.

(** ** The environment of the build commands *)

Section Environment.

Lemma SplitN2_hasEquals (s : string) :
  hasEquals s = true →
  SplitN2 s "="%char = [(entryPair s).1; (entryPair s).2].
Proof.
  induction s as [|c s IH]; [done|]. simpl.
  destruct (Ascii.eqb c "="%char); [done|]. simpl.
  intros H. by rewrite (IH H).
Qed.

Lemma SplitN2_no_equals (s : string) :
  hasEquals s = false → SplitN2 s "="%char = [s].
Proof.
  induction s as [|c s IH]; [done|]. simpl.
  destruct (Ascii.eqb c "="%char); [done|]. simpl.
  intros H. by rewrite (IH H).
Qed.

Lemma parseEntry_pair (start : EnvironmentVars) (e : string) :
  hasEquals e = true →
  parseEntry (Returns start) e
  = Returns (<[(entryPair e).1 := (entryPair e).2]> start).
Proof. intros He. unfold parseEntry. by rewrite (SplitN2_hasEquals e He). Qed.

Lemma parseEntry_no_equals (start : EnvironmentVars) (e : string) :
  hasEquals e = false →
  parseEntry (Returns start) e = Panics "index out of range [1] with length 1".
Proof. intros He. unfold parseEntry. by rewrite (SplitN2_no_equals e He). Qed.

Lemma GetEnvironmentVars_panics_on (environ : list string) :
  ∀ msg, foldl parseEntry (Panics msg) environ = Panics msg.
Proof. induction environ as [|e environ IH]; intros msg; simpl; done. Qed.

Lemma GetEnvironmentVars_from (environ : list string) :
  ∀ start : EnvironmentVars,
    Forall (λ e, hasEquals e = true) environ →
    foldl parseEntry (Returns start) environ
    = Returns (list_to_map (reverse (map entryPair environ)) ∪ start).
Proof.
  induction environ as [|e environ IH]; intros start Hall; cbn [foldl map].
  - simpl. by rewrite (left_id_L ∅ (∪)).
  - apply Forall_cons in Hall as [He Hall].
    rewrite (parseEntry_pair start e He).
    rewrite (IH _ Hall). f_equal.
    rewrite reverse_cons, list_to_map_app. simpl.
    rewrite <- (assoc_L (∪)). f_equal.
    rewrite insert_union_singleton_l.
    destruct (entryPair e) as [key value]. simpl.
    by rewrite insert_empty.
Qed.

Lemma GetEnvironmentVars_ok (environ : list string) :
  Forall (λ e, hasEquals e = true) environ →
  GetEnvironmentVars environ
  = Returns (list_to_map (reverse (map entryPair environ))).
Proof.
  intros Hall. unfold GetEnvironmentVars.
  rewrite (GetEnvironmentVars_from environ ∅ Hall).
  by rewrite (right_id_L ∅ (∪)).
Qed.

Lemma GetEnvironmentVars_panics (environ : list string) (e : string) :
  e ∈ environ → hasEquals e = false →
  GetEnvironmentVars environ = Panics "index out of range [1] with length 1".
Proof.
  unfold GetEnvironmentVars. generalize (∅ : EnvironmentVars).
  induction environ as [|x environ IH]; intros start Hin Hno.
  - by apply elem_of_nil in Hin.
  - cbn [foldl]. destruct (hasEquals x) eqn:Hx.
    + rewrite (parseEntry_pair start x Hx).
      apply elem_of_cons in Hin as [-> | Hin]; [congruence|].
      by apply IH.
    + rewrite (parseEntry_no_equals start x Hx).
      apply GetEnvironmentVars_panics_on.
Qed.

Lemma hasEquals_assignment (kv : string * string) :
  hasEquals (assignment kv) = true.
Proof.
  unfold assignment. induction (kv.1) as [|c k IH]; [done|].
  rewrite append_cons. simpl. rewrite IH. apply orb_true_r.
Qed.

Lemma entryPair_assignment (kv : string * string) :
  hasEquals kv.1 = false → entryPair (assignment kv) = kv.
Proof.
  destruct kv as [k v]. unfold assignment. simpl.
  induction k as [|c k IH]; intros Hk; [done|].
  rewrite append_cons. simpl in *.
  apply orb_false_iff in Hk as [Hc Hk]. rewrite Hc.
  by rewrite (IH Hk).
Qed.

Lemma buildEnv_other_key (pathJoin : string → string → string)
    (version : Version) (manateeSrc manateeLib k : string) :
  k ≠ "CGO_CXXFLAGS" → k ≠ "CGO_CPPFLAGS" → k ≠ "CGO_LDFLAGS" →
  buildEnv pathJoin version manateeSrc manateeLib !! k = None.
Proof.
  intros H1 H2 H3. unfold buildEnv.
  destruct (Ge version v2_208);
    by rewrite !lookup_insert_ne, lookup_empty.
Qed.

Lemma buildEnv_own_keys (pathJoin : string → string → string)
    (version : Version) (manateeSrc manateeLib : string) :
  buildEnv pathJoin version manateeSrc manateeLib !! "CGO_CXXFLAGS"
  = Some (cxxFlags manateeSrc)
  ∧ is_Some (buildEnv pathJoin version manateeSrc manateeLib
               !! "CGO_CPPFLAGS")
  ∧ is_Some (buildEnv pathJoin version manateeSrc manateeLib
               !! "CGO_LDFLAGS").
Proof.
  unfold buildEnv.
  destruct (Ge version v2_208); repeat split;
    rewrite ?lookup_insert_eq; try done;
    repeat (rewrite lookup_insert_ne by done); rewrite ?lookup_insert_eq;
    done.
Qed.

End Environment.

(** X7. [GetEnvironmentVars] on an environment whose entries all have an
    equals sign returns the table that maps the text before the first
    equals sign of an entry to the text behind it, a later entry winning
    over an earlier one with the same key. An entry without equals sign
    makes it panic. *)
Theorem X7_GetEnvironmentVars_table (environ : list string) :
  (Forall (λ e, hasEquals e = true) environ →
   GetEnvironmentVars environ
   = Returns (list_to_map (reverse (map entryPair environ))))
  ∧ (∀ e, e ∈ environ → hasEquals e = false →
     GetEnvironmentVars environ
     = Panics "index out of range [1] with length 1").
Proof.
  split; [apply GetEnvironmentVars_ok|].
  intros e. apply GetEnvironmentVars_panics.
Qed.

(** X8. The entries [Export] appends read back as the map: for a map whose
    keys have no equals sign, [GetEnvironmentVars] on the second half of
    the exported slice returns the map. On the whole slice of a map that is
    not empty it panics, at the first of the empty strings the slice starts
    with. *)
Theorem X8_exported_entries_read_back
    (ev : EnvironmentVars) (order : list (string * string)) :
  visits ev order →
  (∀ k v, ev !! k = Some v → hasEquals k = false) →
  GetEnvironmentVars (drop (size ev) (Export ev order)) = Returns ev
  ∧ (ev ≠ ∅ →
     GetEnvironmentVars (Export ev order)
     = Panics "index out of range [1] with length 1").
Proof.
  intros Hvisit Hkeys. rewrite Export_eq. split.
  - rewrite drop_app_length' by (by rewrite length_replicate).
    rewrite GetEnvironmentVars_ok.
    + rewrite map_map.
      assert (Hid : map (λ kv, entryPair (assignment kv)) order = order).
      { rewrite <- (map_id order) at 2. apply map_ext_in.
        intros [k v] Hin. apply entryPair_assignment. simpl.
        apply (Hkeys k v). apply (visits_entries ev order Hvisit).
        by apply list_elem_of_In. }
      rewrite Hid. f_equal.
      rewrite (list_to_map_proper (reverse order) (map_to_list ev)).
      * apply list_to_map_to_list.
      * rewrite reverse_Permutation.
        unfold visits in Hvisit. rewrite Hvisit.
        apply NoDup_fst_map_to_list.
      * by rewrite reverse_Permutation.
    + apply Forall_forall. intros e He.
      apply list_elem_of_In, in_map_iff in He as (kv & <- & _).
      apply hasEquals_assignment.
  - intros Hne.
    apply (GetEnvironmentVars_panics _ EmptyString); [|done].
    apply elem_of_app. left.
    destruct (size ev) eqn:Hsize; [by apply map_size_empty_iff in Hsize|].
    simpl. by left.
Qed.

Lemma X8_exported_entries_witness :
  let ev : EnvironmentVars := <["CC" := "gcc"]> (<["GOOS" := "linux"]> ∅) in
  GetEnvironmentVars (drop (size ev) (Export ev (map_to_list ev)))
  = Returns ev.
Proof.
  intros ev.
  refine (proj1 (X8_exported_entries_read_back ev (map_to_list ev) _ _)).
  - unfold visits. reflexivity.
  - intros k v Hkv. unfold ev in Hkv.
    destruct (decide (k = "CC")) as [->|]; [reflexivity|].
    rewrite lookup_insert_ne in Hkv by done.
    destruct (decide (k = "GOOS")) as [->|]; [reflexivity|].
    rewrite lookup_insert_ne in Hkv by done.
    by rewrite lookup_empty in Hkv.
Defined.

(** X9. The environment of the commands [buildProject] starts is the
    ambient one with the three derived variables laid over it: after
    [currEnv := GetEnvironmentVars()] and [currEnv.UpdateBy(buildEnv)],
    [currEnv] gives [CGO_CXXFLAGS], [CGO_CPPFLAGS] and [CGO_LDFLAGS] the
    values of [buildEnv], whatever the ambient environment held for them,
    and every other variable its ambient value. *)
Theorem X9_build_environment_overrides_ambient
    (pathJoin : string → string → string) (h : store) (l : loc)
    (environ : list string) (version : Version)
    (manateeSrc manateeLib : string) (order : list (string * string)) :
  Forall (λ e, hasEquals e = true) environ →
  visits (buildEnv pathJoin version manateeSrc manateeLib) order →
  ∃ currEnv : EnvironmentVars,
    buildProject_currEnv h l environ
      (buildEnv pathJoin version manateeSrc manateeLib) order
    = Returns currEnv
    ∧ (∀ k, k ∈ ["CGO_CXXFLAGS"; "CGO_CPPFLAGS"; "CGO_LDFLAGS"] →
         is_Some (currEnv !! k)
         ∧ currEnv !! k
           = buildEnv pathJoin version manateeSrc manateeLib !! k)
    ∧ (∀ k, k ∉ ["CGO_CXXFLAGS"; "CGO_CPPFLAGS"; "CGO_LDFLAGS"] →
         currEnv !! k
         = (list_to_map (reverse (map entryPair environ))
              : EnvironmentVars) !! k).
Proof.
  intros Hall Hvisit.
  set (derived := buildEnv pathJoin version manateeSrc manateeLib) in *.
  set (ambient := list_to_map (reverse (map entryPair environ))
                  : EnvironmentVars).
  exists (derived ∪ ambient).
  unfold buildProject_currEnv.
  rewrite (GetEnvironmentVars_ok environ Hall). fold ambient.
  rewrite (UpdateBy_writes order (<[l := ambient]> h) l ambient)
    by apply lookup_insert_eq.
  rewrite (writeAll_visits ambient derived order Hvisit).
  split; [|split].
  - simpl. by rewrite lookup_insert_eq.
  - intros k Hk.
    destruct (buildEnv_own_keys pathJoin version manateeSrc manateeLib)
      as (Hcxx & [cpp Hcpp] & [ld Hld]).
    fold derived in Hcxx, Hcpp, Hld.
    repeat (apply elem_of_cons in Hk as [-> | Hk]);
      try (by apply elem_of_nil in Hk);
      rewrite lookup_union;
      [rewrite Hcxx | rewrite Hcpp | rewrite Hld];
      destruct (ambient !! _); simpl; split; done || by eexists.
  - intros k Hk. rewrite lookup_union.
    unfold derived. rewrite buildEnv_other_key.
    + by destruct (ambient !! k).
    + intros ->. apply Hk. set_solver.
    + intros ->. apply Hk. set_solver.
    + intros ->. apply Hk. set_solver.
Qed.

Lemma X9_build_environment_witness :
  ∃ currEnv : EnvironmentVars,
    buildProject_currEnv ∅ 1%positive ["CGO_LDFLAGS=-lold"; "HOME=/root"]
      (buildEnv joinClean (mkVersion 2 223 6 EmptyString) "/tmp/m" "/usr/lib")
      (map_to_list (buildEnv joinClean (mkVersion 2 223 6 EmptyString)
                      "/tmp/m" "/usr/lib"))
    = Returns currEnv
    ∧ currEnv !! "HOME" = Some "/root".
Proof.
  destruct (X9_build_environment_overrides_ambient joinClean ∅ 1%positive
              ["CGO_LDFLAGS=-lold"; "HOME=/root"]
              (mkVersion 2 223 6 EmptyString) "/tmp/m" "/usr/lib"
              (map_to_list (buildEnv joinClean (mkVersion 2 223 6 EmptyString)
                              "/tmp/m" "/usr/lib")))
    as (currEnv & Hrun & _ & Hother).
  - repeat constructor.
  - unfold visits. reflexivity.
  - exists currEnv. split; [exact Hrun|].
    rewrite Hother; [vm_compute; reflexivity|].
    intros Hin.
    repeat (apply elem_of_cons in Hin as [Hin | Hin]; [discriminate Hin|]).
    by apply elem_of_nil in Hin.
Defined.

Example environment_later_entry_wins :
  GetEnvironmentVars ["CC=gcc"; "OPTS=-O2 -DX=1"; "CC=clang"]
  = Returns (<["CC" := "clang"]> (<["OPTS" := "-O2 -DX=1"]> ∅)).
Proof. reflexivity. Qed.

(** ** More on source acquisition *)

Section AcquisitionEffects.
Variable w : World.

Lemma downloadFile_effects (url target : string) :
  createCalls (downloadFile w url target).2 = [target]
  ∧ removals (downloadFile w url target).2 = []
  ∧ copies (downloadFile w url target).2
    = match osCreate w target, httpGet w url with
      | None, inr StatusCode =>
          if (200 <=? StatusCode) && (StatusCode <? 400)
          then [(url, target)] else []
      | _, _ => []
      end.
Proof.
  unfold downloadFile, bind, perform, ret.
  destruct (osCreate w target) as [e|]; simpl; [done|].
  destruct (httpGet w url) as [e|code]; simpl; [done|].
  destruct (Z.ltb_spec code 200), (Z.leb_spec 400 code),
           (Z.leb_spec 200 code), (Z.ltb_spec code 400);
    simpl; try lia; done.
Qed.











End AcquisitionEffects.





(** X12. [downloadFile] returns nil exactly when the target file could be
    created, the response status is from 200 to 399 and the body was copied
    whole. It creates the target file before it asks the network, also when
    the request then fails, never removes it, and writes the response body
    only for a status in that range. *)
Theorem X12_downloadFile_outcome (w : World) (url target : string) :
  ((downloadFile w url target).1 = None
   ↔ osCreate w target = None
     ∧ (∃ status, httpGet w url = inr status ∧ 200 ≤ status < 400)
     ∧ ioCopy w url = None)
  ∧ (∃ rest, (downloadFile w url target).2 = EvCreate target :: rest)
  ∧ removals (downloadFile w url target).2 = []
  ∧ (copies (downloadFile w url target).2 = [(url, target)]
     ↔ osCreate w target = None
       ∧ ∃ status, httpGet w url = inr status ∧ 200 ≤ status < 400).
Proof.
  pose proof (downloadFile_effects w url target) as (_ & HR & HC).
  split; [|split; [|split]].
  - rewrite downloadFile_result. unfold downloadOk.
    destruct (osCreate w target) as [e|]; [split; [done|by intros [? _]]|].
    destruct (httpGet w url) as [e|code].
    + split; [done|]. by intros (_ & (st & Hst & _) & _).
    + destruct (ioCopy w url) as [e|].
      * split; [done|]. by intros (_ & _ & ?).
      * rewrite andb_true_iff, Z.leb_le, Z.ltb_lt. split.
        -- intros Hr. repeat split; try done. by exists code.
        -- by intros (_ & (st & [= <-] & Hst) & _).
  - unfold downloadFile, bind, perform, ret.
    destruct (osCreate w target); simpl; [by eexists|].
    destruct (httpGet w url); simpl; [by eexists|].
    destruct (_ || _); by eexists.
  - exact HR.
  - rewrite HC.
    destruct (osCreate w target) as [e|]; [split; [done|by intros [? _]]|].
    destruct (httpGet w url) as [e|code].
    + split; [done|]. by intros (_ & st & Hst & _).
    + destruct (Z.leb_spec 200 code) as [Hlo|Hlo],
               (Z.ltb_spec code 400) as [Hhi|Hhi]; simpl; split.
      all: try (intros Hcopy; discriminate Hcopy).
      all: try (intros (_ & st & [= <-] & Hst); lia).
      all: try (intros _; split; [done|by exists code]).
      all: done.
Qed.

(** ** Preparing the sources *)

(** X13. [initManateeSources] runs its commands one after the other and
    stops at the first that fails: with [config.hh] testable and the
    environment readable, the commands it starts are [make clean] (only
    when [config.hh] is a file), [./configure], and, for a version strictly
    above 2.208.0 only, [make] in [hat-trie] and then in [fsa3], cut after
    the first failure; it returns nil exactly when all of them succeed.
    [make clean] and [./configure] run with the exported environment, the
    two [make] with the inherited one. *)
Theorem X13_initManateeSources_stops_at_first_failure
    (pathJoin : string → string → string) (bw : BuildWorld)
    (environ : list string) (order1 order2 : list (string * string))
    (version : Version) (manateeSrc : string) (isFile : bool) :
  IsFile bw (pathJoin manateeSrc "config.hh") = (isFile, None) →
  Forall (λ e, hasEquals e = true) environ →
  let env : EnvironmentVars :=
    list_to_map (reverse (map entryPair environ)) in
  let cmds :=
    initCommands pathJoin isFile env order1 order2 version manateeSrc in
  ∃ result,
    initManateeSources pathJoin bw environ order1 order2 version manateeSrc
    = Returns (result, untilFirstFailure bw cmds)
    ∧ (result = None ↔ Forall (λ c, cmdRun bw c = None) cmds)
    ∧ (∀ c, c ∈ cmds →
         Env c = Some (Export env order1) ∨ Env c = Some (Export env order2)
         ∨ (Env c = None ∧ Path c = "make" ∧ Ge version v2_208 = true)).
Proof.
  intros Hfile Hall env cmds.
  unfold initManateeSources. rewrite Hfile.
  rewrite (GetEnvironmentVars_ok environ Hall). fold env.
  unfold cmds, initCommands.
  destruct isFile, (Ge version v2_208); simpl;
    repeat match goal with
           | |- context [cmdRun bw ?c] =>
               let E := fresh "E" in destruct (cmdRun bw c) eqn:E; simpl
           end;
    eexists; (split; [reflexivity|]); split;
    try (split; [try done; intros _; repeat constructor; done
                |intros Hf; try done;
                 repeat (apply Forall_cons in Hf as [? Hf]); congruence]);
    intros c Hc;
    repeat (apply elem_of_cons in Hc as [-> | Hc]); auto;
    by apply elem_of_nil in Hc.
Qed.

Lemma X13_initManateeSources_witness :
  ∃ result,
    initManateeSources joinClean
      (mkBuildWorld (λ _, (true, None))
         (λ c, if String.eqb (Path c) "./configure"
               then Some (ExternalError "exit status 1") else None))
      ["HOME=/root"] [("HOME", "/root")] [("HOME", "/root")]
      (mkVersion 2 223 6 EmptyString) "/tmp/m"
    = Returns (result,
               [makeClean [EmptyString; "HOME=/root"] "/tmp/m";
                configure [EmptyString; "HOME=/root"] "/tmp/m"]).
Proof.
  destruct (X13_initManateeSources_stops_at_first_failure joinClean
              (mkBuildWorld (λ _, (true, None))
                 (λ c, if String.eqb (Path c) "./configure"
                       then Some (ExternalError "exit status 1") else None))
              ["HOME=/root"] [("HOME", "/root")] [("HOME", "/root")]
              (mkVersion 2 223 6 EmptyString) "/tmp/m" true)
    as (result & Hrun & _).
  - reflexivity.
  - repeat constructor.
  - exists result. exact Hrun.
Defined.

(** ** Choosing the version and locating the library *)

(** X14. [main] goes on past its allow-list test only with a version whose
    triple is one of the five admitted ones. Without an explicit version
    this is the detected version, so a detected 2.208.0 ends the run as
    unsupported; with an explicit version it is the parse result of the
    argument, whatever was detected. *)
Theorem X14_specified_version_is_admitted
    (arg1 : string) (detected specified : Version) :
  (main_specify arg1 detected = Proceeds specified →
   triple specified ∈ admittedTriples
   ∧ (arg1 = EmptyString → specified = detected)
   ∧ (arg1 ≠ EmptyString → ParseManateeVersion arg1 = (specified, None)))
  ∧ (triple detected = (2, 208, 0) →
     ∃ stderr, main_specify EmptyString detected = Exit 1 stderr None).
Proof.
  split.
  - unfold main_specify.
    destruct (String.eqb_spec arg1 EmptyString) as [->|Hne]; cbn [negb].
    + destruct (SliceContains KnownVersions (Semver detected)) eqn:Hadm;
        cbn [negb]; [|done].
      intros [= <-]. split; [by apply admitted_triple|].
      split; [done|]. intros Hne. by destruct Hne.
    + destruct (ParseManateeVersion arg1) as [v [e|]]; [done|].
      destruct (SliceContains KnownVersions (Semver v)) eqn:Hadm;
        cbn [negb]; [|done].
      intros [= <-]. split; [by apply admitted_triple|].
      split; [|done]. intros ->. by destruct Hne.
  - intros Ht. unfold main_specify. cbn [negb String.eqb].
    destruct (SliceContains KnownVersions (Semver detected)) eqn:Hadm;
      cbn [negb]; [|by eexists].
    apply admitted_triple in Hadm. rewrite Ht in Hadm.
    unfold admittedTriples in Hadm.
    repeat (apply elem_of_cons in Hadm as [Hadm | Hadm];
            [discriminate Hadm|]).
    by apply elem_of_nil in Hadm.
Qed.

(** X15. Locating the library. Without [--manatee-lib], the operation
    succeeds only when the specified and the detected version have the
    same triple, the directory is the one [findManatee] found, and a
    launcher is asked for unless that directory is [/usr/local/lib]: a
    library found in [/usr/lib] or under [/opt/manatee] gets one. With
    [--manatee-lib], the detected version plays no part. Without
    [--manatee-src], the sources are acquired before any of this is
    tested, so a mismatch is reported after the download. With the sources
    given and a library found, unequal triples end the operation with the
    mismatch report that names the detected and the specified version. *)
Theorem X15_locate_checks_version_only_without_override
    (pathJoin : string → string → string) (w : World)
    (manateeSrc manateeLib : string) (specified detected : Version) :
  (manateeLib = EmptyString →
   ∀ src lib script,
     (main_locate pathJoin w manateeSrc manateeLib specified detected).1
     = Located src lib script →
     Eq specified detected = true
     ∧ lib = findManatee pathJoin w specified
     ∧ lib ≠ EmptyString
     ∧ (script = false ↔ lib = "/usr/local/lib"))
  ∧ (manateeLib ≠ EmptyString →
     ∀ detected',
       main_locate pathJoin w manateeSrc manateeLib specified detected'
       = main_locate pathJoin w manateeSrc manateeLib specified detected)
  ∧ (manateeSrc = EmptyString →
     (main_locate pathJoin w manateeSrc manateeLib specified detected).2
     = (downloadManateeSrc w specified).2)
  ∧ (manateeLib = EmptyString → manateeSrc ≠ EmptyString →
     findManatee pathJoin w specified ≠ EmptyString →
     Eq specified detected = false →
     main_locate pathJoin w manateeSrc manateeLib specified detected
     = (LocateFails (VersionMismatch detected specified), [])).
Proof.
  split; [|split; [|split]].
  - intros -> src lib script. unfold main_locate.
    destruct (if String.eqb manateeSrc EmptyString
              then downloadManateeSrc w specified
              else ((manateeSrc, None), [])) as [[s [e|]] t]; [done|].
    simpl.
    destruct (String.eqb_spec (findManatee pathJoin w specified) EmptyString)
      as [Hnil|Hfound]; [done|].
    destruct (Eq specified detected); [|done]. simpl.
    intros [= <- <- <-]. repeat split; try done.
    + unfold findManatee.
      destruct (PathExists w "/usr/lib/libmanatee.so"); [done|].
      destruct (PathExists w "/usr/local/lib/libmanatee.so"); [done|].
      destruct (PathExists w _); [|done].
      intros H. discriminate H.
    + intros ->. reflexivity.
  - intros Hne detected'. unfold main_locate.
    destruct (String.eqb_spec manateeLib EmptyString); done.
  - intros ->. unfold main_locate. simpl.
    destruct (downloadManateeSrc w specified) as [[s [e|]] t]; [done|].
    destruct (String.eqb manateeLib EmptyString); [|done].
    destruct (String.eqb _ _); [done|].
    by destruct (negb _).
  - intros -> Hsrc Hfound Hneq. unfold main_locate.
    destruct (String.eqb_spec manateeSrc EmptyString); [done|]. simpl.
    destruct (String.eqb_spec (findManatee pathJoin w specified) EmptyString);
      [done|].
    by rewrite Hneq.
Qed.

(** X16. When both [/usr/lib] and [/usr/local/lib] hold a library and
    [--manatee-lib] is not given, the version is read from the library in
    [/usr/local/lib], while the directory handed to the build, for a
    specified version with the same triple, is [/usr/lib], with a launcher
    script asked for. With [--manatee-src] that is the whole operation;
    without it the sources are acquired first: the operation ends with the
    acquisition error when that fails, and hands over [/usr/lib] with the
    acquired sources when it succeeds. *)
Theorem X16_detects_one_library_and_links_another
    (pathJoin : string → string → string) (w : World)
    (knownVersions : list string) (out whole text manateeSrc : string)
    (specified : Version) :
  PathExists w "/usr/lib/libmanatee.so" = true →
  PathExists w "/usr/local/lib/libmanatee.so" = true →
  stringsOutput w "/usr/local/lib/libmanatee.so" = (out, None) →
  Regexp.FindStringSubmatch out = [whole; text] →
  let detected := (ParseManateeVersion text).1 in
  AutodetectManateeVersion pathJoin w EmptyString knownVersions
  = Returns (ParseManateeVersion text)
  ∧ (Eq specified detected = true →
     (manateeSrc ≠ EmptyString →
      main_locate pathJoin w manateeSrc EmptyString specified detected
      = (Located manateeSrc "/usr/lib" true, []))
     ∧ main_locate pathJoin w EmptyString EmptyString specified detected
       = match downloadManateeSrc w specified with
         | ((src, None), trace) => (Located src "/usr/lib" true, trace)
         | ((_, Some err), trace) =>
             (LocateFails (AcquisitionFailed err), trace)
         end).
Proof.
  intros Husr Hlocal Hout Hmatch detected. split.
  - unfold AutodetectManateeVersion, libPathOf. simpl.
    unfold DefaultManateeLibPath. by rewrite Hlocal, Hout, Hmatch.
  - intros Heq. split.
    + intros Hsrc. unfold main_locate, findManatee.
      destruct (String.eqb_spec manateeSrc EmptyString); [done|].
      simpl. by rewrite Husr, Heq.
    + unfold main_locate, findManatee. cbn [String.eqb].
      destruct (downloadManateeSrc w specified) as [[src [err|]] trace];
        [done|].
      simpl. by rewrite Husr, Heq.
Qed.

(** Two libraries of different versions and no flag: the version is the
    one of [/usr/local/lib]. *)
Lemma X16_two_libraries_witness :
  AutodetectManateeVersion joinClean
    (mkWorld (λ _, true) (IsDir bareWorld) (ReadDir bareWorld)
       (λ path, if String.eqb path "/usr/local/lib/libmanatee.so"
                then ("manatee-open-2.223.6", None)
                else ("manatee-open-2.214.1", None))
       (osCreate bareWorld) (httpGet bareWorld) (ioCopy bareWorld)
       (tarRun bareWorld))
    EmptyString KnownVersions
  = Returns (mkVersion 2 223 6 EmptyString, None).
Proof.
  refine (proj1 (X16_detects_one_library_and_links_another joinClean _
                   KnownVersions "manatee-open-2.223.6" "open-2.223.6"
                   "2.223.6" EmptyString (mkVersion 2 223 6 EmptyString)
                   _ _ _ _)); reflexivity.
Defined.

(** ** The header *)

Section Header.

Lemma repeatStr_length (str : string) (n : Z) :
  String.length (repeatStr str n)
  = (Z.to_nat n * String.length str)%nat.
Proof.
  unfold repeatStr. induction (Z.to_nat n) as [|k IH]; [done|].
  simpl. rewrite append_length, IH. lia.
Qed.

End Header.

(** X17. The frame [mkHeader] prints fits its text: whatever the version,
    build date and commit strings are, the border line above and below is
    as long, in bytes, as the text line between them, and it is a plus
    sign, dashes and a plus sign. *)
Theorem X17_header_border_fits (version buildDate gitCommit : string) :
  ∃ hd verInfo,
    mkHeader version buildDate gitCommit = [hd; verInfo; hd]
    ∧ String.length hd = String.length verInfo
    ∧ hd = "+" +:+ repeatStr "-" (Z.of_nat (String.length verInfo) - 2)
             +:+ "+".
Proof.
  unfold mkHeader. do 2 eexists. split; [reflexivity|]. split; [|reflexivity].
  set (verInfo := "|  manabuild " +:+ version +:+ ", build date: "
                    +:+ buildDate +:+ ", last commit: " +:+ gitCommit
                    +:+ "  |").
  assert (Hlen : (2 ≤ String.length verInfo)%nat).
  { unfold verInfo. rewrite append_length.
    change (String.length "|  manabuild ") with 13%nat. lia. }
  rewrite (append_length "+"), (append_length _ "+"), repeatStr_length.
  change (String.length "+") with 1%nat.
  change (String.length "-") with 1%nat. lia.
Qed.

(** ** The build run *)

Section BuildRunFacts.
Variable pathJoin : string → string → string.
Variable pathJoin3 : string → string → string → string.
Variable TrimSpace : string → string.
Variable HiGreenString : string → string.
Variable colorSet colorUnset : string.
Variable bw : BuildWorld.
Variable combinedOutput : Cmd → string.

Lemma initManateeSources_started (environ : list string)
    (order1 order2 : list (string * string)) (version : Version)
    (manateeSrc : string) (isFile : bool) :
  IsFile bw (pathJoin manateeSrc "config.hh") = (isFile, None) →
  Forall (λ e, hasEquals e = true) environ →
  ∃ result,
    initManateeSources pathJoin bw environ order1 order2 version manateeSrc
    = Returns
        (result,
         untilFirstFailure bw
           (initCommands pathJoin isFile
              (list_to_map (reverse (map entryPair environ)))
              order1 order2 version manateeSrc)).
Proof.
  intros Hfile Hall.
  unfold initManateeSources. rewrite Hfile.
  rewrite (GetEnvironmentVars_ok environ Hall).
  unfold initCommands.
  destruct isFile, (Ge version v2_208); simpl;
    repeat match goal with
           | |- context [cmdRun bw ?c] =>
               let E := fresh "E" in destruct (cmdRun bw c) eqn:E; simpl
           end;
    by eexists.
Qed.

Lemma buildProject_currEnv_ok (environ : list string)
    (buildEnv : EnvironmentVars) (updateOrder : list (string * string)) :
  Forall (λ e, hasEquals e = true) environ →
  visits buildEnv updateOrder →
  buildProject_currEnv ∅ 1%positive environ buildEnv updateOrder
  = Returns (buildEnv ∪ list_to_map (reverse (map entryPair environ))).
Proof.
  intros Hall Hupdate. unfold buildProject_currEnv.
  rewrite (GetEnvironmentVars_ok environ Hall).
  rewrite (UpdateBy_writes updateOrder _ 1%positive _
             (lookup_insert_eq _ _ _)).
  rewrite (writeAll_visits _ _ updateOrder Hupdate).
  simpl. by rewrite lookup_insert_eq.
Qed.

Lemma buildProject_started (dt : string) (environ : list string)
    (printOrder updateOrder order1 order2 order3 : list (string * string))
    (version : Version) (workingDir manateeSrc manateeLib : string)
    (test : bool) (binaryName cmdDir ver commit : string) :
  Forall (λ e, hasEquals e = true) environ →
  visits (buildEnv pathJoin version manateeSrc manateeLib) updateOrder →
  getVersionInfo TrimSpace bw combinedOutput workingDir = (ver, None) →
  getCommitInfo TrimSpace bw combinedOutput workingDir = (commit, None) →
  let cmds :=
    buildCommands pathJoin3 ver dt commit
      (buildEnv pathJoin version manateeSrc manateeLib
         ∪ list_to_map (reverse (map entryPair environ)))
      order1 order2 order3 workingDir test binaryName cmdDir in
  ∃ result,
    buildProject pathJoin pathJoin3 TrimSpace HiGreenString colorSet
      colorUnset bw combinedOutput dt environ printOrder updateOrder order1
      order2 order3 version workingDir manateeSrc manateeLib test binaryName
      cmdDir false
    = Returns
        (mkBuildRun result
           ([gitDescribe workingDir; gitRevParse workingDir]
              ++ untilFirstFailure bw cmds)
           ([colorSet] ++ EnvironmentVars_Print HiGreenString printOrder tab
              ++ [colorUnset]))
    ∧ (result = None ↔ Forall (λ c, cmdRun bw c = None) cmds).
Proof.
  intros Hall Hupdate Hver Hcommit cmds.
  unfold buildProject. rewrite Hver, Hcommit.
  rewrite (buildProject_currEnv_ok environ _ updateOrder Hall Hupdate).
  unfold cmds, buildCommands, buildProject_commands.
  destruct test; simpl;
    repeat match goal with
           | |- context [cmdRun bw ?c] =>
               let E := fresh "E" in destruct (cmdRun bw c) eqn:E; simpl
           end;
    eexists; (split; [reflexivity|]);
    (split; [try done; intros _; repeat constructor; done
            |intros Hf; try done;
             repeat (apply Forall_cons in Hf as [? Hf]); congruence]).
Qed.

(** The three derived variables, whatever the version. *)
Lemma buildEnv_entries (version : Version) (manateeSrc manateeLib : string) :
  ∃ cxx cpp ld,
    buildEnv pathJoin version manateeSrc manateeLib !! "CGO_CXXFLAGS"
    = Some cxx
    ∧ buildEnv pathJoin version manateeSrc manateeLib !! "CGO_CPPFLAGS"
      = Some cpp
    ∧ buildEnv pathJoin version manateeSrc manateeLib !! "CGO_LDFLAGS"
      = Some ld
    ∧ map_to_list (buildEnv pathJoin version manateeSrc manateeLib)
      ≡ₚ [("CGO_LDFLAGS", ld); ("CGO_CPPFLAGS", cpp); ("CGO_CXXFLAGS", cxx)].
Proof.
  unfold buildEnv.
  destruct (Ge version v2_208); do 3 eexists;
    (split; [by rewrite !lookup_insert_ne, lookup_insert_eq by done|]);
    (split; [by rewrite lookup_insert_ne, lookup_insert_eq by done|]);
    (split; [by rewrite lookup_insert_eq|]);
    rewrite !map_to_list_insert, map_to_list_empty;
    rewrite ?lookup_insert_ne, ?lookup_empty by done; done.
Qed.

End BuildRunFacts.

(** C2 (as the code has it). For a map with [n] entries, [Export] returns
    a slice of length [2 * n]: first [n] empty strings, then the [n]
    strings [KEY=value], one per entry of the map in the order of the
    iteration. This slice, empty entries included, is the environment of
    the commands that are given one: [make clean] and [./configure] of
    [initManateeSources], with the variables of the process, and
    [go generate], [go test ./...] and the build of [buildProject], with
    those variables updated by the derived ones. The other commands are
    started with no environment of their own and inherit that of the
    process: [make] in [hat-trie] and in [fsa3], the two [git] commands,
    [tar] and [strings]. The commands are listed for a run in which
    [config.hh] can be tested, every entry of the process environment has
    an equals sign and [git] answers; each list is cut after the first
    command that fails. *)
Theorem C2_exported_slice_where_an_environment_is_set
    (pathJoin : string → string → string)
    (pathJoin3 : string → string → string → string)
    (TrimSpace HiGreenString : string → string) (colorSet colorUnset : string)
    (bw : BuildWorld) (combinedOutput : Cmd → string)
    (ev : EnvironmentVars) (order : list (string * string))
    (dt : string) (environ : list string)
    (cleanOrder configureOrder : list (string * string))
    (printOrder updateOrder order1 order2 order3 : list (string * string))
    (version : Version) (workingDir manateeSrc manateeLib : string)
    (isFile test : bool) (binaryName cmdDir ver commit : string) :
  visits ev order →
  Forall (λ e, hasEquals e = true) environ →
  IsFile bw (pathJoin manateeSrc "config.hh") = (isFile, None) →
  visits (buildEnv pathJoin version manateeSrc manateeLib) updateOrder →
  getVersionInfo TrimSpace bw combinedOutput workingDir = (ver, None) →
  getCommitInfo TrimSpace bw combinedOutput workingDir = (commit, None) →
  let n := size ev in
  let env : EnvironmentVars :=
    list_to_map (reverse (map entryPair environ)) in
  let currEnv : EnvironmentVars :=
    buildEnv pathJoin version manateeSrc manateeLib ∪ env in
  length (Export ev order) = (2 * n)%nat
  ∧ take n (Export ev order) = replicate n EmptyString
  ∧ drop n (Export ev order) = map (λ kv, kv.1 +:+ "=" +:+ kv.2) order
  ∧ length order = n
  ∧ (∀ k v, (k, v) ∈ order ↔ ev !! k = Some v)
  ∧ (∀ cw, Env (cmd (applyOption (WithEnv ev order) cw))
           = Some (Export ev order))
  ∧ (∃ result,
       initManateeSources pathJoin bw environ cleanOrder configureOrder
         version manateeSrc
       = Returns
           (result,
            untilFirstFailure bw
              ((if isFile
                then [mkCmd "make" ["make"; "clean"] manateeSrc
                        (Some (Export env cleanOrder)) false]
                else [])
               ++ [mkCmd "./configure"
                     ["./configure"; "--with-pcre"; "--disable-python";
                      "--disable-pthread"]
                     manateeSrc (Some (Export env configureOrder)) false]
               ++ (if Ge version v2_208
                   then [mkCmd "make" ["make"]
                           (pathJoin manateeSrc "hat-trie") None false;
                         mkCmd "make" ["make"]
                           (pathJoin manateeSrc "fsa3") None false]
                   else []))))
  ∧ (∃ run,
       buildProject pathJoin pathJoin3 TrimSpace HiGreenString colorSet
         colorUnset bw combinedOutput dt environ printOrder updateOrder
         order1 order2 order3 version workingDir manateeSrc manateeLib test
         binaryName cmdDir false
       = Returns run
       ∧ buildStarted run
         = [mkCmd "git" ["git"; "describe"; "--tags"] workingDir None false;
            mkCmd "git" ["git"; "rev-parse"; "--short"; "HEAD"] workingDir
              None false]
           ++ untilFirstFailure bw
                ([mkCmd "bash" ["bash"; "-c"; "go generate"] workingDir
                    (Some (Export currEnv order1)) false]
                 ++ (if test
                     then [mkCmd "bash" ["bash"; "-c"; "go test ./..."]
                             workingDir (Some (Export currEnv order2)) true]
                     else [])
                 ++ [mkCmd "bash"
                       ["bash"; "-c";
                        buildLine pathJoin3 ver dt commit workingDir
                          binaryName cmdDir]
                       workingDir (Some (Export currEnv order3)) false]))
  ∧ (∀ path, Env (tarCommand path) = None ∧ Env (stringsCommand path) = None).
Proof.
  intros Hvisit Hall Hfile Hupdate Hver Hcommit n env currEnv.
  pose proof (visits_length ev order Hvisit) as Hlen.
  assert (Hrep : length (replicate n EmptyString : list string) = n)
    by apply length_replicate.
  repeat apply conj.
  - rewrite Export_eq, length_app, length_map. fold n. lia.
  - rewrite Export_eq. fold n. by rewrite take_app_length'.
  - rewrite Export_eq. fold n. by rewrite drop_app_length'.
  - done.
  - by apply visits_entries.
  - intros cw. reflexivity.
  - destruct (initManateeSources_started pathJoin bw environ cleanOrder
                configureOrder version manateeSrc isFile Hfile Hall)
      as [result Hrun].
    exists result. rewrite Hrun. reflexivity.
  - destruct (buildProject_started pathJoin pathJoin3 TrimSpace HiGreenString
                colorSet colorUnset bw combinedOutput dt environ printOrder
                updateOrder order1 order2 order3 version workingDir manateeSrc
                manateeLib test binaryName cmdDir ver commit Hall Hupdate
                Hver Hcommit) as (result & Hrun & _).
    eexists. split; [exact Hrun|]. cbn [buildStarted].
    by destruct test.
  - intros path. split; reflexivity.
Qed.

(** The hypotheses of C2 hold of a two-entry environment and of a run in
    which every command succeeds. *)
Lemma C2_exported_slice_witness :
  let ev : EnvironmentVars := <["CC" := "gcc"]> (<["GOOS" := "linux"]> ∅) in
  length (Export ev (map_to_list ev)) = 4%nat.
Proof.
  intros ev.
  refine (proj1 (C2_exported_slice_where_an_environment_is_set joinClean
                   (λ a b c, joinClean (joinClean a b) c)
                   (λ s, s) (λ s, s) EmptyString EmptyString
                   (mkBuildWorld (λ _, (true, None)) (λ _, None))
                   (λ _, "v1.2.0")
                   ev (map_to_list ev)
                   "2026-01-01T00:00:00+01:00" ["HOME=/root"]
                   [("HOME", "/root")] [("HOME", "/root")] []
                   (map_to_list (buildEnv joinClean
                                   (mkVersion 2 223 6 EmptyString)
                                   "/tmp/m" "/usr/local/lib"))
                   [] [] [] (mkVersion 2 223 6 EmptyString) "." "/tmp/m"
                   "/usr/local/lib" true true "app" EmptyString
                   "v1.2.0" "v1.2.0" _ _ _ _ _ _)).
  - unfold visits. reflexivity.
  - repeat constructor.
  - reflexivity.
  - unfold visits. reflexivity.
  - reflexivity.
  - reflexivity.
Defined.

(** The claim fails for the commands that are given no environment: in a
    run of [initManateeSources] for 2.223.6 in which every command
    succeeds, [make] is started in [hat-trie] with a nil [Env], which is no
    exported slice. *)
Lemma C2_make_runs_without_exported_environment :
  ∃ started c,
    initManateeSources joinClean
      (mkBuildWorld (λ _, (true, None)) (λ _, None))
      ["HOME=/root"] [("HOME", "/root")] [("HOME", "/root")]
      (mkVersion 2 223 6 EmptyString) "/tmp/m"
    = Returns (None, started)
    ∧ c ∈ started
    ∧ Path c = "make" ∧ Dir c = "/tmp/m/hat-trie"
    ∧ ∀ (ev : EnvironmentVars) (order : list (string * string)),
        Env c ≠ Some (Export ev order).
Proof.
  eexists _, (makeIn "/tmp/m/hat-trie"). split; [reflexivity|].
  split; [|done].
  apply elem_of_cons. right. apply elem_of_cons. right.
  apply elem_of_cons. by left.
Qed.

(** X18. [buildProject] first asks [git], in the working directory and
    with the inherited environment: [git describe --tags], whose failure
    counts only when its output lacks [No names found], then
    [git rev-parse --short HEAD]. When one of the two fails, the wrapped
    error is returned, nothing else is started and nothing is printed. With
    [prepareOnly] no further command is started: one [export] line is
    printed for each of the three derived variables, and nil is returned.
    Otherwise the three variables are printed, one line each, between what
    the colour library writes; then [go generate], [go test ./...] if tests
    are asked for, and the build are started, each under [bash -c] in the
    working directory and with the exported merged environment, up to the
    first that fails; nil is returned exactly when all of them succeed. *)
Theorem X18_buildProject_runs_until_first_failure
    (pathJoin : string → string → string)
    (pathJoin3 : string → string → string → string)
    (TrimSpace HiGreenString : string → string) (colorSet colorUnset : string)
    (bw : BuildWorld) (combinedOutput : Cmd → string)
    (dt : string) (environ : list string)
    (printOrder updateOrder order1 order2 order3 : list (string * string))
    (version : Version) (workingDir manateeSrc manateeLib : string)
    (test : bool) (binaryName cmdDir : string) (prepareOnly : bool) :
  Forall (λ e, hasEquals e = true) environ →
  visits (buildEnv pathJoin version manateeSrc manateeLib) updateOrder →
  visits (buildEnv pathJoin version manateeSrc manateeLib) printOrder →
  let derived := buildEnv pathJoin version manateeSrc manateeLib in
  let describe := gitDescribe workingDir in
  let revParse := gitRevParse workingDir in
  let verInfo := getVersionInfo TrimSpace bw combinedOutput workingDir in
  let commitInfo := getCommitInfo TrimSpace bw combinedOutput workingDir in
  let cmds :=
    buildCommands pathJoin3 verInfo.1 dt commitInfo.1
      (derived ∪ list_to_map (reverse (map entryPair environ)))
      order1 order2 order3 workingDir test binaryName cmdDir in
  ∃ run,
    buildProject pathJoin pathJoin3 TrimSpace HiGreenString colorSet
      colorUnset bw combinedOutput dt environ printOrder updateOrder order1
      order2 order3 version workingDir manateeSrc manateeLib test binaryName
      cmdDir prepareOnly
    = Returns run
    ∧ Env describe = None ∧ Env revParse = None
    ∧ (verInfo.2 = None
       ↔ cmdRun bw describe = None
         ∨ Contains (TrimSpace (combinedOutput describe)) "No names found"
           = true)
    ∧ (commitInfo.2 = None ↔ cmdRun bw revParse = None)
    ∧ match verInfo.2, commitInfo.2 with
      | Some err, _ => run = mkBuildRun (Some err) [describe] []
      | None, Some err => run = mkBuildRun (Some err) [describe; revParse] []
      | None, None =>
          if prepareOnly then
            run = mkBuildRun None [describe; revParse]
                    (map exportLine printOrder)
            ∧ ∃ cxx cpp ld,
                derived !! "CGO_CXXFLAGS" = Some cxx
                ∧ derived !! "CGO_CPPFLAGS" = Some cpp
                ∧ derived !! "CGO_LDFLAGS" = Some ld
                ∧ buildStdout run
                  ≡ₚ [exportLine ("CGO_LDFLAGS", ld);
                      exportLine ("CGO_CPPFLAGS", cpp);
                      exportLine ("CGO_CXXFLAGS", cxx)]
          else
            buildStarted run
            = [describe; revParse] ++ untilFirstFailure bw cmds
            ∧ (buildErr run = None ↔ Forall (λ c, cmdRun bw c = None) cmds)
            ∧ ∃ cxx cpp ld,
                derived !! "CGO_CXXFLAGS" = Some cxx
                ∧ derived !! "CGO_CPPFLAGS" = Some cpp
                ∧ derived !! "CGO_LDFLAGS" = Some ld
                ∧ ∃ lines,
                    buildStdout run = [colorSet] ++ lines ++ [colorUnset]
                    ∧ lines
                      ≡ₚ [HiGreenString (tab +:+ "CGO_LDFLAGS") +:+ "="
                            +:+ ld +:+ nl;
                          HiGreenString (tab +:+ "CGO_CPPFLAGS") +:+ "="
                            +:+ cpp +:+ nl;
                          HiGreenString (tab +:+ "CGO_CXXFLAGS") +:+ "="
                            +:+ cxx +:+ nl]
      end.
Proof.
  intros Hall Hupdate Hprint derived describe revParse verInfo commitInfo cmds.
  destruct (buildEnv_entries pathJoin version manateeSrc manateeLib)
    as (cxx & cpp & ld & Hcxx & Hcpp & Hld & Hlist).
  assert (Hgit : verInfo.2 = None
                 ↔ cmdRun bw describe = None
                   ∨ Contains (TrimSpace (combinedOutput describe))
                       "No names found" = true).
  { unfold verInfo, getVersionInfo. fold describe.
    destruct (cmdRun bw describe) as [e|]; [|by split; [left|]].
    destruct (Contains _ _); cbn [snd].
    - by split; [right|].
    - split; [done|]. by intros [|]. }
  assert (Hrev : commitInfo.2 = None ↔ cmdRun bw revParse = None).
  { unfold commitInfo, getCommitInfo. fold revParse. cbn [snd].
    by destruct (cmdRun bw revParse). }
  destruct verInfo as [ver [verr|]] eqn:Hver.
  { eexists. repeat split; try apply Hgit; try apply Hrev.
    unfold buildProject. fold verInfo. by rewrite Hver. }
  destruct commitInfo as [commit [cerr|]] eqn:Hcommit.
  { eexists. repeat split; try apply Hgit; try apply Hrev.
    unfold buildProject. fold verInfo commitInfo.
    by rewrite Hver, Hcommit. }
  destruct prepareOnly.
  - eexists. split.
    { unfold buildProject. fold verInfo commitInfo.
      rewrite Hver, Hcommit. reflexivity. }
    repeat split; try apply Hgit; try apply Hrev.
    exists cxx, cpp, ld. repeat split; try done.
    cbn [buildStdout]. unfold visits in Hprint.
    rewrite Hprint, Hlist. reflexivity.
  - destruct (buildProject_started pathJoin pathJoin3 TrimSpace HiGreenString
                colorSet colorUnset bw combinedOutput dt environ printOrder
                updateOrder order1 order2 order3 version workingDir manateeSrc
                manateeLib test binaryName cmdDir ver commit Hall Hupdate
                Hver Hcommit) as (result & Hrun & Hres).
    eexists. split; [exact Hrun|].
    repeat split; try apply Hgit; try apply Hrev; try apply Hres.
    exists cxx, cpp, ld. repeat split; try done.
    eexists. split; [reflexivity|].
    unfold EnvironmentVars_Print, visits in *.
    rewrite Hprint, Hlist. reflexivity.
Qed.

(** A run that only prepares: [git] answers, nothing else is started. *)
Lemma X18_buildProject_witness :
  ∃ run,
    buildProject joinClean (λ a b c, joinClean (joinClean a b) c)
      (λ s, s) (λ s, s) EmptyString EmptyString
      (mkBuildWorld (λ _, (false, None)) (λ _, None)) (λ _, "v1.2.0")
      "2026-01-01T00:00:00+01:00" ["HOME=/root"]
      (map_to_list (buildEnv joinClean (mkVersion 2 167 8 EmptyString)
                      "/tmp/m" "/usr/local/lib"))
      (map_to_list (buildEnv joinClean (mkVersion 2 167 8 EmptyString)
                      "/tmp/m" "/usr/local/lib"))
      [] [] [] (mkVersion 2 167 8 EmptyString) "." "/tmp/m" "/usr/local/lib"
      false "app" EmptyString true
    = Returns run
    ∧ buildStarted run = [gitDescribe "."; gitRevParse "."].
Proof.
  destruct (X18_buildProject_runs_until_first_failure joinClean
              (λ a b c, joinClean (joinClean a b) c)
              (λ s, s) (λ s, s) EmptyString EmptyString
              (mkBuildWorld (λ _, (false, None)) (λ _, None)) (λ _, "v1.2.0")
              "2026-01-01T00:00:00+01:00" ["HOME=/root"]
              (map_to_list (buildEnv joinClean (mkVersion 2 167 8 EmptyString)
                              "/tmp/m" "/usr/local/lib"))
              (map_to_list (buildEnv joinClean (mkVersion 2 167 8 EmptyString)
                              "/tmp/m" "/usr/local/lib"))
              [] [] [] (mkVersion 2 167 8 EmptyString) "." "/tmp/m"
              "/usr/local/lib" false "app" EmptyString true)
    as (run & Hrun & _ & _ & _ & _ & Hcase).
  - repeat constructor.
  - unfold visits. reflexivity.
  - unfold visits. reflexivity.
  - exists run. split; [exact Hrun|].
    cbn [getVersionInfo getCommitInfo cmdRun snd] in Hcase.
    destruct Hcase as [-> _]. reflexivity.
Defined.
